(** * discord_http/user.py: PartialUser, User and UserClient

    A shallow embedding of the user models of discord.http and the
    properties their documentation promises.

    Layout:
    - Python values, truthiness, exceptions and the builtins the file uses;
    - the interface of the modules user.py imports (asset, colour, flags,
      response, message, channel, utils, enums);
    - the three classes, their constructors and properties;
    - the world the coroutines run in (request log, object store, detached
      tasks) and the coroutines send, create_dm, fetch and edit;
    - a concrete instance of the imported interface, used to run examples;
    - the theorems. *)

From Stdlib Require Import ZArith String Ascii List Floats DecimalString.
From Stdlib Require DecimalZ.
From stdpp Require Import base gmap strings list.

Set Warnings "-register-all".
Set Default Proof Using "Type".
Open Scope Z_scope.

(** ** Python values *)

(** What a decoded JSON body can hold.  Strings are byte strings, integers
    are unbounded, floats are IEEE doubles. *)
Inductive pyval :=
| PNone
| PBool (b : bool)
| PInt (z : Z)
| PFloat (f : float)
| PStr (s : string)
| PList (l : list pyval)
| PDict (d : gmap string pyval).

Abbreviation dict := (gmap string pyval).

(** [bool(v)]: None, False, zero, and empty containers are falsy. *)
Definition truthy (v : pyval) : bool :=
  match v with
  | PNone => false
  | PBool b => b
  | PInt z => negb (z =? 0)
  | PFloat f => negb (PrimFloat.eqb f 0%float)
  | PStr s => match s with EmptyString => false | String _ _ => true end
  | PList l => match l with [] => false | _ :: _ => true end
  | PDict d => negb (bool_decide (d = ∅))
  end.

(** [v == s] for a string literal [s]: only an equal string compares equal. *)
Definition eq_str (v : pyval) (s : string) : bool :=
  match v with
  | PStr t => bool_decide (t = s)
  | _ => false
  end.

(** [a or b] on values. *)
Definition py_or (a b : pyval) : pyval := if truthy a then a else b.

(** The [utils.MISSING] sentinel: a keyword argument is either left at its
    default [MISSING] or given (possibly as [None]). *)
Inductive arg (A : Type) :=
| MISSING
| Given (a : A).
Arguments MISSING {A}.
Arguments Given {A} a.

(** ** Exceptions *)

Inductive exn :=
| KeyError (key : string)
| TypeError
| ValueError
| OverflowError
| ReferenceError
| ZeroDivisionError
| HTTPException (status : Z).

Inductive result (A : Type) :=
| Ok (a : A)
| Raise (e : exn).
Arguments Ok {A} a.
Arguments Raise {A} e.

#[global] Instance result_ret : MRet result := fun _ a => Ok a.
#[global] Instance result_bind : MBind result := fun _ _ f r =>
  match r with
  | Ok a => f a
  | Raise e => Raise e
  end.

Definition is_ok {A} (r : result A) : bool :=
  match r with Ok _ => true | Raise _ => false end.

(** ** Builtins *)

(** [d[k]] raises KeyError on a missing key; [d.get(k, default)] does not. *)
Definition getitem (d : dict) (k : string) : result pyval :=
  match d !! k with
  | Some v => Ok v
  | None => Raise (KeyError k)
  end.

Definition get (d : dict) (k : string) (default : pyval) : pyval :=
  match d !! k with
  | Some v => v
  | None => default
  end.

(** ASCII white space as [int] strips it from an ASCII string: TAB..CR and
    the space.  The separators FS..US are not stripped. *)
Definition is_space (c : ascii) : bool :=
  let n := N_of_ascii c in
  (((9 <=? n) && (n <=? 13)) || (n =? 32))%N.

Definition digit_of (c : ascii) : option Z :=
  let n := N_of_ascii c in
  if ((48 <=? n) && (n <=? 57))%N then Some (Z.of_N n - 48) else None.

Fixpoint lstrip (l : list ascii) : list ascii :=
  match l with
  | c :: r => if is_space c then lstrip r else l
  | [] => []
  end.

Definition strip (l : list ascii) : list ascii :=
  rev (lstrip (rev (lstrip l))).

(** Decimal digits, single underscores allowed between two digits. *)
Fixpoint digits (acc : Z) (after_digit : bool) (l : list ascii) : option Z :=
  match l with
  | [] => if after_digit then Some acc else None
  | c :: r =>
      match digit_of c with
      | Some d => digits (10 * acc + d) true r
      | None =>
          if Ascii.eqb c "_" && after_digit then digits acc false r else None
      end
  end.

Definition int_of_str (s : string) : option Z :=
  match strip (list_ascii_of_string s) with
  | "-"%char :: r => Z.opp <$> digits 0 false r
  | "+"%char :: r => digits 0 false r
  | l => digits 0 false l
  end.

(** [int(f)] on a double: truncation toward zero. *)
Definition int_of_float (f : float) : result Z :=
  match Prim2SF f with
  | S754_zero _ => Ok 0
  | S754_infinity _ => Raise OverflowError
  | S754_nan => Raise ValueError
  | S754_finite s m e =>
      let mag := if 0 <=? e then Z.shiftl (Z.pos m) e else Z.shiftr (Z.pos m) (- e) in
      Ok (if s then - mag else mag)
  end.

(** [int(v)].  Strings are read as ASCII decimal literals; the interpreter's
    limit on the number of digits is not modelled. *)
Definition int (v : pyval) : result Z :=
  match v with
  | PInt z => Ok z
  | PBool b => Ok (if b then 1 else 0)
  | PFloat f => int_of_float f
  | PStr s =>
      match int_of_str s with
      | Some z => Ok z
      | None => Raise ValueError
      end
  | PNone | PList _ | PDict _ => Raise TypeError
  end.

(** [str(z)], as an f-string formats an integer. *)
Definition str_of_int (z : Z) : string :=
  NilZero.string_of_int (Z.to_int z).

(** [str(x)] for an [Optional[int]]. *)
Definition str_of_optional_int (x : option Z) : string :=
  match x with
  | Some z => str_of_int z
  | None => "None"
  end.

(** ** The modules user.py imports

    None of asset.py, colour.py, flags.py, enums.py, response.py, message.py,
    channel.py and utils.py is part of this development: user.py is verified
    against their interface.  Every constructor may raise. *)
Class Imports := {
  (** asset.py: [Asset._from_avatar(state, user_id, avatar)] and siblings. *)
  Asset : Type;
  Asset_from_avatar : Z -> pyval -> result Asset;
  Asset_from_banner : Z -> pyval -> result Asset;
  Asset_from_avatar_decoration : pyval -> result Asset;
  Asset_from_default_avatar : Z -> result Asset;
  (** [bool(asset)], as [x or y] tests it. *)
  Asset_bool : Asset -> bool;
  (** colour.py: [Colour(value)] and [Colour.from_hex(hex)]. *)
  Colour : Type;
  Colour_init : pyval -> result Colour;
  Colour_from_hex : pyval -> result Colour;
  (** flags.py *)
  UserFlags : Type;
  UserFlags_init : pyval -> result UserFlags;
  MessageFlags : Type;
  (** enums.py: [len(DefaultAvatarType)], the number of members. *)
  DefaultAvatarType_len : nat;
  (** embeds.py, file.py, view.py, mentions.py *)
  Embed : Type;
  File : Type;
  View : Type;
  AllowedMentions : Type;
  (** response.py: [MessageResponse(content, embed=..., ...)], its multipart
      body and its content type. *)
  ResponseType : Type;
  MessageResponse : Type;
  Multipart : Type;
  MessageResponse_init :
    arg (option string) -> arg (option Embed) -> arg (option (list Embed)) ->
    arg (option File) -> arg (option (list File)) -> arg (option View) ->
    option bool -> ResponseType + Z -> arg (option MessageFlags) ->
    arg (option AllowedMentions) -> result MessageResponse;
  to_multipart : MessageResponse -> bool -> result Multipart;
  content_type : MessageResponse -> string;
  (** message.py and channel.py: the models parsed from a response body. *)
  Message : Type;
  Message_init : dict -> result Message;
  Message_delete_path : Message -> string;
  DMChannel : Type;
  DMChannel_init : dict -> result DMChannel;
  DMChannel_id : DMChannel -> Z;
  (** utils.py *)
  bytes_to_base64 : list Byte.byte -> result string;
}.

(** ** PartialUser *)

Module PartialUser.

(** Modelled from the spec: the base class PartialBase of object.py, which
    is not among the sources, is a minimal identity holder: its constructor
    stores the id it is given. *)
Record t := mk { id : Z }.

Section with_imports.
Context `{Imports}.

(** [PartialUser(state=..., id=...)]: the id goes through [int]. *)
Definition __init__ (id : pyval) : result t :=
  i ← int id;
  mret (mk i).

Definition __repr__ (self : t) : string :=
  "<PartialUser id=" +:+ str_of_int (id self) +:+ ">".

Definition mention (self : t) : string :=
  "<@!" +:+ str_of_int (id self) +:+ ">".

(** [x % n] raises on a zero divisor. *)
Definition default_avatar_index (self : t) : result Z :=
  let n := Z.of_nat DefaultAvatarType_len in
  if n =? 0 then Raise ZeroDivisionError
  else Ok (Z.shiftr (id self) 22 mod n).

Definition default_avatar (self : t) : result Asset :=
  i ← default_avatar_index self;
  Asset_from_default_avatar i.

End with_imports.
End PartialUser.

(** ** User *)

Module User.
Section with_imports.
Context `{Imports}.

(** The attributes [User.__init__] assigns, on top of the PartialUser ones.
    Attributes holding objects of imported classes are [Optional]; the
    others hold whatever the record carried. *)
Record t := mk {
  base : PartialUser.t;
  avatar : option Asset;
  banner : option Asset;
  name : pyval;
  bot : pyval;
  system : pyval;
  discriminator : pyval;
  accent_colour : option Colour;
  banner_colour : option Colour;
  avatar_decoration : option Asset;
  global_name : pyval;
  public_flags : option UserFlags;
  clan : pyval;
}.

Definition id (self : t) : Z := PartialUser.id (base self).

(** Attribute assignments [self.x = v]. *)
Definition set_avatar (v : option Asset) (self : t) : t :=
  mk (base self) v (banner self) (name self) (bot self) (system self)
     (discriminator self) (accent_colour self) (banner_colour self)
     (avatar_decoration self) (global_name self) (public_flags self) (clan self).

Definition set_banner (v : option Asset) (self : t) : t :=
  mk (base self) (avatar self) v (name self) (bot self) (system self)
     (discriminator self) (accent_colour self) (banner_colour self)
     (avatar_decoration self) (global_name self) (public_flags self) (clan self).

Definition set_discriminator (v : pyval) (self : t) : t :=
  mk (base self) (avatar self) (banner self) (name self) (bot self) (system self)
     v (accent_colour self) (banner_colour self)
     (avatar_decoration self) (global_name self) (public_flags self) (clan self).

Definition set_accent_colour (v : option Colour) (self : t) : t :=
  mk (base self) (avatar self) (banner self) (name self) (bot self) (system self)
     (discriminator self) v (banner_colour self)
     (avatar_decoration self) (global_name self) (public_flags self) (clan self).

Definition set_banner_colour (v : option Colour) (self : t) : t :=
  mk (base self) (avatar self) (banner self) (name self) (bot self) (system self)
     (discriminator self) (accent_colour self) v
     (avatar_decoration self) (global_name self) (public_flags self) (clan self).

Definition set_avatar_decoration (v : option Asset) (self : t) : t :=
  mk (base self) (avatar self) (banner self) (name self) (bot self) (system self)
     (discriminator self) (accent_colour self) (banner_colour self)
     v (global_name self) (public_flags self) (clan self).

Definition set_public_flags (v : option UserFlags) (self : t) : t :=
  mk (base self) (avatar self) (banner self) (name self) (bot self) (system self)
     (discriminator self) (accent_colour self) (banner_colour self)
     (avatar_decoration self) (global_name self) v (clan self).

(** [if data.get(k, None): self.x = make(data[k])], one per optional key, in
    the order of the source. *)
Definition _from_data (self : t) (data : dict) : result t :=
  self ← (if truthy (get data "avatar" PNone) then
            v ← getitem data "avatar";
            a ← Asset_from_avatar (id self) v;
            mret (set_avatar (Some a) self)
          else mret self);
  self ← (if truthy (get data "banner" PNone) then
            v ← getitem data "banner";
            a ← Asset_from_banner (id self) v;
            mret (set_banner (Some a) self)
          else mret self);
  self ← (if truthy (get data "accent_color" PNone) then
            v ← getitem data "accent_color";
            c ← Colour_init v;
            mret (set_accent_colour (Some c) self)
          else mret self);
  self ← (if truthy (get data "banner_color" PNone) then
            v ← getitem data "banner_color";
            c ← Colour_from_hex v;
            mret (set_banner_colour (Some c) self)
          else mret self);
  self ← (if truthy (get data "avatar_decoration" PNone) then
            v ← getitem data "avatar_decoration";
            a ← Asset_from_avatar_decoration v;
            mret (set_avatar_decoration (Some a) self)
          else mret self);
  if truthy (get data "public_flags" PNone) then
    v ← getitem data "public_flags";
    f ← UserFlags_init v;
    mret (set_public_flags (Some f) self)
  else mret self.

(** [User(state=..., data=...)]. *)
Definition __init__ (data : dict) : result t :=
  raw_id ← getitem data "id";
  i ← int raw_id;
  super ← PartialUser.__init__ (PInt i);
  username ← getitem data "username";
  let self :=
    mk super None None username
       (get data "bot" (PBool false))
       (get data "system" (PBool false))
       (get data "discriminator" PNone)
       None None None
       (get data "global_name" PNone)
       None
       (get data "clan" PNone) in
  let self :=
    if eq_str (discriminator self) "0" then set_discriminator PNone self
    else self in
  _from_data self data.

Definition mention (self : t) : string := PartialUser.mention (base self).

Definition default_avatar (self : t) : result Asset :=
  PartialUser.default_avatar (base self).

Definition global_avatar (self : t) : option Asset := avatar self.

(** [self.global_name or self.name] *)
Definition display_name (self : t) : pyval :=
  py_or (global_name self) (name self).

(** [self.avatar or self.default_avatar]: the right operand is evaluated
    only when the left one is [None] or a falsy object. *)
Definition display_avatar (self : t) : result Asset :=
  match avatar self with
  | Some a => if Asset_bool a then Ok a else default_avatar self
  | None => default_avatar self
  end.

End with_imports.

Section printing.
Context `{Imports}.

(** The builtin [str], which an f-string applies to each value it
    interpolates. *)
Variable str : pyval -> string.

Definition __repr__ (self : t) : string :=
  "<User id=" +:+ str_of_int (id self) +:+ " name='" +:+ str (name self)
    +:+ "' global_name='" +:+ str (global_name self) +:+ "'>".

(** The method returns [self.name] itself when there is no discriminator. *)
Definition __str__ (self : t) : pyval :=
  if truthy (discriminator self)
  then PStr (str (name self) +:+ "#" +:+ str (discriminator self))
  else name self.

End printing.
End User.

(** ** UserClient *)

Module UserClient.
Section with_imports.
Context `{Imports}.

Record t := mk {
  base : User.t;
  verified : pyval;
}.

Definition id (self : t) : Z := User.id (base self).

(** [UserClient(state=..., data=...)] *)
Definition __init__ (data : dict) : result t :=
  super ← User.__init__ data;
  mret (mk super (get data "verified" (PBool false))).

Definition __repr__ (str : pyval -> string) (self : t) : string :=
  "<UserClient id=" +:+ str_of_int (id self) +:+ " name='"
    +:+ str (User.name (base self)) +:+ "'>".

End with_imports.
End UserClient.

(** ** The collaborator and the world

    [self._state] is the one DiscordAPI object every model shares.  Its
    [query] is outside this file: it is an arbitrary function of the
    requests made so far and the request at hand, answering with a decoded
    record or raising. *)

Module http.
Section with_imports.
Context `{Imports}.

(** [query(method, path, json=..., data=..., headers=...)] *)
Record Request := mkRequest {
  method : string;
  path : string;
  json : option dict;
  data : option Multipart;
  headers : option (gmap string string);
}.

Definition DiscordAPI : Type := list Request -> Request -> result dict.

(** Objects of the three classes live in a store and are named by their
    address; a constructor call allocates a new address. *)
Inductive instance :=
| IPartialUser (p : PartialUser.t)
| IUser (u : User.t)
| IUserClient (c : UserClient.t).

Definition instance_id (o : instance) : Z :=
  match o with
  | IPartialUser p => PartialUser.id p
  | IUser u => User.id u
  | IUserClient c => UserClient.id c
  end.

Definition loc := nat.

(** A task handed to the event loop by [asyncio.create_task]. *)
Record Task := mkTask {
  delay : float;
  target : Message;
}.

Record World := mkWorld {
  trace : list Request;
  heap : list instance;
  spawned : list Task;
}.

(** A coroutine: it runs from a world to a world and returns or raises. *)
Definition M (A : Type) : Type := World -> World * result A.

#[global] Instance M_ret : MRet M := fun _ a w => (w, Ok a).
#[global] Instance M_bind : MBind M := fun _ _ f m w =>
  match m w with
  | (w', Ok a) => f a w'
  | (w', Raise e) => (w', Raise e)
  end.

(** A call that does not touch the world. *)
Definition lift {A} (r : result A) : M A := fun w => (w, r).

(** [self.id] on the object at [self]. *)
Definition attr_id (self : loc) : M Z := fun w =>
  match heap w !! self with
  | Some o => (w, Ok (instance_id o))
  | None => (w, Raise ReferenceError)
  end.

(** A constructor call that succeeded: the object gets the next address. *)
Definition new (o : instance) : M loc := fun w =>
  (mkWorld (trace w) (heap w ++ [o]) (spawned w), Ok (length (heap w))).

Variable api : DiscordAPI.

(** [await self._state.query(...)]: the request is logged, then answered. *)
Definition query (req : Request) : M dict := fun w =>
  (mkWorld (trace w ++ [req]) (heap w) (spawned w), api (trace w) req).

(** Modelled from the spec: [Message.delete(delay=d)] of message.py, which is
    not among the sources.  With a delay it schedules a best-effort deferred
    deletion: the work is spawned as a detached task and the call returns
    at once, without raising. *)
Definition Message_delete (msg : Message) (d : float) : M unit := fun w =>
  (mkWorld (trace w) (heap w) (spawned w ++ [mkTask d msg]), Ok tt).

(** Modelled from the spec: the detached task once the event loop runs it,
    after the delay.  It issues the deletion request; a failure of that
    request is swallowed and reaches no caller. *)
Definition run_task (t : Task) (w : World) : World :=
  fst (query (mkRequest "DELETE" (Message_delete_path (target t))
                        None None None) w).

(** The event loop runs the oldest pending task, if any. *)
Definition run_next (w : World) : World :=
  match spawned w with
  | [] => w
  | t :: rest => run_task t (mkWorld (trace w) (heap w) rest)
  end.

End with_imports.
End http.

(** ** The coroutines of user.py *)

Section coroutines.
Context `{Imports}.
Import http.
Variable api : DiscordAPI.

(** The keyword arguments of [send] that make up the message. *)
Record MessageFields := mkFields {
  content : arg (option string);
  embed : arg (option Embed);
  embeds : arg (option (list Embed));
  file : arg (option File);
  files : arg (option (list File));
  view : arg (option View);
  tts : option bool;
  type : ResponseType + Z;
  flags : arg (option MessageFlags);
  allowed_mentions : arg (option AllowedMentions);
}.

(** The defaults of the signature, with the given content. *)
Definition fields_of (content : arg (option string)) : MessageFields :=
  mkFields content MISSING MISSING MISSING MISSING MISSING
           (Some false) (inr 4) MISSING MISSING.

(** [PartialUser.create_dm] *)
Definition create_dm (self : loc) : M DMChannel :=
  i ← attr_id self;
  r ← query api (mkRequest "POST" "/users/@me/channels"
                           (Some {[ "recipient_id" := PInt i ]}) None None);
  lift (DMChannel_init r).

(** [PartialUser.send].  [delete_after] is an [Optional[float]], on which
    [float(delete_after)] is the identity. *)
Definition send (self : loc) (f : MessageFields) (channel_id : arg (option Z))
    (delete_after : option float) : M Message :=
  channel_id ← match channel_id with
               | MISSING =>
                   fetch_channel ← create_dm self;
                   mret (Some (DMChannel_id fetch_channel))
               | Given c => mret c
               end;
  payload ← lift (MessageResponse_init (content f) (embed f) (embeds f)
                    (file f) (files f) (view f) (tts f) (type f) (flags f)
                    (allowed_mentions f));
  body ← lift (to_multipart payload true);
  r ← query api (mkRequest "POST"
                   ("/channels/" +:+ str_of_optional_int channel_id
                      +:+ "/messages")
                   None (Some body)
                   (Some {[ "Content-Type" := content_type payload ]}));
  _msg ← lift (Message_init r);
  _ ← match delete_after with
      | Some d => Message_delete _msg d
      | None => mret tt
      end;
  mret _msg.

(** [PartialUser.fetch] *)
Definition fetch (self : loc) : M loc :=
  i ← attr_id self;
  r ← query api (mkRequest "GET" ("/users/" +:+ str_of_int i) None None None);
  u ← lift (User.__init__ r);
  new (IUser u).

(** The payload [UserClient.edit] builds before it issues the request:
    a key is stored only under [is not MISSING]; bytes are encoded and
    [None] is stored as it is. *)
Definition edit_payload (username : arg (option string))
    (avatar banner : arg (option (list Byte.byte))) : result dict :=
  let payload : dict := ∅ in
  let payload :=
    match username with
    | MISSING => payload
    | Given (Some u) => <[ "username" := PStr u ]> payload
    | Given None => <[ "username" := PNone ]> payload
    end in
  payload ← match avatar with
            | MISSING => mret payload
            | Given (Some b) =>
                s ← bytes_to_base64 b;
                mret (<[ "avatar" := PStr s ]> payload)
            | Given None => mret (<[ "avatar" := PNone ]> payload)
            end;
  match banner with
  | MISSING => mret payload
  | Given (Some b) =>
      s ← bytes_to_base64 b;
      mret (<[ "banner" := PStr s ]> payload)
  | Given None => mret (<[ "banner" := PNone ]> payload)
  end.

(** [UserClient.edit] *)
Definition edit (self : loc) (username : arg (option string))
    (avatar banner : arg (option (list Byte.byte))) : M loc :=
  payload ← lift (edit_payload username avatar banner);
  r ← query api (mkRequest "PATCH" "/users/@me" (Some payload) None None);
  c ← lift (UserClient.__init__ r);
  new (IUserClient c).

End coroutines.

(** ** A concrete reading of the imported modules

    The theorems hold for every instance of [Imports] and every
    collaborator.  This instance and this collaborator are there to run the
    code on examples. *)

Module Reference.

(** Modelled from the spec: an image reference is a derived handle (hash,
    owning identity, kind); asset.py is not among the sources. *)
Record asset := mkAsset {
  kind : string;
  owner : option Z;
  key : pyval;
}.

Definition hex_digit (c : ascii) : option Z :=
  let n := N_of_ascii c in
  if ((48 <=? n) && (n <=? 57))%N then Some (Z.of_N n - 48)
  else if ((97 <=? n) && (n <=? 102))%N then Some (Z.of_N n - 87)
  else if ((65 <=? n) && (n <=? 70))%N then Some (Z.of_N n - 55)
  else None.

Fixpoint hex (acc : Z) (l : list ascii) : option Z :=
  match l with
  | [] => Some acc
  | c :: r =>
      match hex_digit c with
      | Some d => hex (16 * acc + d) r
      | None => None
      end
  end.

(** Modelled from the spec: colours are decoded from an integer or from a
    hex string, depending on the key; colour.py is not among the sources. *)
Definition colour_init (v : pyval) : result Z :=
  match v with
  | PInt z => if (0 <=? z) && (z <=? 16777215) then Ok z else Raise ValueError
  | _ => Raise TypeError
  end.

Definition colour_from_hex (v : pyval) : result Z :=
  match v with
  | PStr s =>
      let l := match list_ascii_of_string s with
               | "#"%char :: r => r
               | l => l
               end in
      match l, hex 0 l with
      | _ :: _, Some z => colour_init (PInt z)
      | _, _ => Raise ValueError
      end
  | _ => Raise TypeError
  end.

Definition flags_init (v : pyval) : result Z :=
  match v with
  | PInt z => Ok z
  | _ => Raise TypeError
  end.

Record message_response := mkResponse {
  response_content : option string;
  response_tts : bool;
}.

Record message := mkMessage {
  message_id : Z;
  message_channel : Z;
}.

(** Modelled from the spec: a message record parsed from a response body;
    message.py is not among the sources. *)
Definition message_init (data : dict) : result message :=
  raw ← getitem data "id";
  i ← int raw;
  raw ← getitem data "channel_id";
  c ← int raw;
  mret (mkMessage i c).

Definition message_delete_path (m : message) : string :=
  "/channels/" +:+ str_of_int (message_channel m) +:+ "/messages/"
    +:+ str_of_int (message_id m).

(** Modelled from the spec: the parsed channel record, of which user.py
    reads the id; channel.py is not among the sources. *)
Definition dmchannel_init (data : dict) : result Z :=
  raw ← getitem data "id";
  int raw.

Definition alphabet : list ascii :=
  list_ascii_of_string
    "ABCDEFGHIJKLMNOPQRSTUVWXYZabcdefghijklmnopqrstuvwxyz0123456789+/".

Definition sextet (n : N) : ascii := nth (N.to_nat (n mod 64)%N) alphabet "="%char.

(** Modelled from the spec: image bytes are base64-encoded (RFC 4648, with
    padding); utils.py is not among the sources. *)
Fixpoint base64 (l : list N) : list ascii :=
  match l with
  | a :: b :: c :: r =>
      let n := (a * 65536 + b * 256 + c)%N in
      sextet (n / 262144) :: sextet (n / 4096) :: sextet (n / 64) :: sextet n
        :: base64 r
  | [a; b] =>
      let n := (a * 1024 + b * 4)%N in
      [sextet (n / 4096); sextet (n / 64); sextet n; "="%char]
  | [a] =>
      let n := (a * 16)%N in
      [sextet (n / 64); sextet n; "="%char; "="%char]
  | [] => []
  end.

Definition data_to_base64 (b : list Byte.byte) : result string :=
  Ok (string_of_list_ascii (base64 (map Byte.to_N b))).

#[export] Instance imports : Imports := {|
  Asset := asset;
  Asset_from_avatar := fun i v => Ok (mkAsset "avatar" (Some i) v);
  Asset_from_banner := fun i v => Ok (mkAsset "banner" (Some i) v);
  Asset_from_avatar_decoration := fun v => Ok (mkAsset "avatar_decoration" None v);
  Asset_from_default_avatar := fun n => Ok (mkAsset "default" None (PInt n));
  Asset_bool := fun _ => true;
  Colour := Z;
  Colour_init := colour_init;
  Colour_from_hex := colour_from_hex;
  UserFlags := Z;
  UserFlags_init := flags_init;
  MessageFlags := Z;
  DefaultAvatarType_len := 6;
  Embed := dict;
  File := string * list Byte.byte;
  View := dict;
  AllowedMentions := dict;
  ResponseType := Z;
  MessageResponse := message_response;
  Multipart := string;
  MessageResponse_init := fun content _ _ _ _ _ tts _ _ _ =>
    Ok (mkResponse (match content with Given c => c | MISSING => None end)
                   (match tts with Some b => b | None => false end));
  to_multipart := fun r _ =>
    Ok (match response_content r with Some c => c | None => "" end);
  content_type := fun _ => "multipart/form-data";
  Message := message;
  Message_init := message_init;
  Message_delete_path := message_delete_path;
  DMChannel := Z;
  DMChannel_init := dmchannel_init;
  DMChannel_id := fun c => c;
  bytes_to_base64 := data_to_base64;
|}.

(** The record of the end-to-end scenario. *)
Definition al : dict :=
  <[ "id" := PStr "123" ]> (<[ "username" := PStr "al" ]>
  (<[ "global_name" := PNone ]> (<[ "discriminator" := PStr "0" ]> ∅))).

(** A bot account with every optional key set. *)
Definition bot_record : dict :=
  <[ "id" := PInt 80351110224678912 ]> (<[ "username" := PStr "helper" ]>
  (<[ "global_name" := PStr "Helper" ]> (<[ "discriminator" := PStr "1337" ]>
  (<[ "bot" := PBool true ]> (<[ "avatar" := PStr "8342729096ea3675442027381ff50dfe" ]>
  (<[ "banner" := PStr "06c16474723fe537c283b8efa61a30c8" ]>
  (<[ "accent_color" := PInt 16711680 ]> (<[ "banner_color" := PStr "#ff0000" ]>
  (<[ "avatar_decoration" := PStr "a_fed43ab12698df65902ba06727e20c0e" ]>
  (<[ "public_flags" := PInt 64 ]> (<[ "verified" := PBool true ]> ∅))))))))))).

(** A record whose optional keys are present but falsy, and whose global
    name is the empty string. *)
Definition blank_record : dict :=
  <[ "id" := PStr "1" ]> (<[ "username" := PStr "al" ]>
  (<[ "global_name" := PStr "" ]> (<[ "avatar" := PNone ]>
  (<[ "banner" := PStr "" ]> (<[ "accent_color" := PInt 0 ]>
  (<[ "public_flags" := PInt 0 ]> ∅)))))).

Import http.

(** A collaborator that creates channel 555, posts message 900, serves
    [bot_record] as every profile and refuses every deletion. *)
Definition api : DiscordAPI := fun _ req =>
  if String.eqb (method req) "POST" then
    if String.eqb (path req) "/users/@me/channels"
    then Ok {[ "id" := PStr "555" ]}
    else Ok (<[ "id" := PStr "900" ]> {[ "channel_id" := PStr "555" ]})
  else if String.eqb (method req) "DELETE" then Raise (HTTPException 404)
  else Ok bot_record.

(** A collaborator that refuses everything. *)
Definition down : DiscordAPI := fun _ _ => Raise (HTTPException 503).

(** A world holding one PartialUser, id 123, at address 0. *)
Definition world : World := mkWorld [] [IPartialUser (PartialUser.mk 123)] [].

(** [str] on the values a name or a discriminator takes; floats and
    containers are not printed. *)
Definition str_value (v : pyval) : string :=
  match v with
  | PNone => "None"
  | PBool true => "True"
  | PBool false => "False"
  | PInt z => str_of_int z
  | PStr s => s
  | PFloat _ | PList _ | PDict _ => "..."
  end.

(** A second reading, in which two of the imported functions refuse some
    input: [MessageResponse(...)] raises when both [embed] and [embeds] are
    given, and [bytes_to_base64] raises on empty data. *)
Definition strict_response (content : arg (option string))
    (embed : arg (option dict)) (embeds : arg (option (list dict)))
    (tts : option bool) : result message_response :=
  match embed, embeds with
  | Given _, Given _ => Raise ValueError
  | _, _ =>
      Ok (mkResponse (match content with Given c => c | MISSING => None end)
                     (match tts with Some b => b | None => false end))
  end.

Definition strict_base64 (b : list Byte.byte) : result string :=
  match b with
  | [] => Raise ValueError
  | _ :: _ => data_to_base64 b
  end.

Definition strict : Imports := {|
  Asset := asset;
  Asset_from_avatar := fun i v => Ok (mkAsset "avatar" (Some i) v);
  Asset_from_banner := fun i v => Ok (mkAsset "banner" (Some i) v);
  Asset_from_avatar_decoration := fun v => Ok (mkAsset "avatar_decoration" None v);
  Asset_from_default_avatar := fun n => Ok (mkAsset "default" None (PInt n));
  Asset_bool := fun _ => true;
  Colour := Z;
  Colour_init := colour_init;
  Colour_from_hex := colour_from_hex;
  UserFlags := Z;
  UserFlags_init := flags_init;
  MessageFlags := Z;
  DefaultAvatarType_len := 6;
  Embed := dict;
  File := string * list Byte.byte;
  View := dict;
  AllowedMentions := dict;
  ResponseType := Z;
  MessageResponse := message_response;
  Multipart := string;
  MessageResponse_init := fun content embed embeds _ _ _ tts _ _ _ =>
    strict_response content embed embeds tts;
  to_multipart := fun r _ =>
    Ok (match response_content r with Some c => c | None => "" end);
  content_type := fun _ => "multipart/form-data";
  Message := message;
  Message_init := message_init;
  Message_delete_path := message_delete_path;
  DMChannel := Z;
  DMChannel_init := dmchannel_init;
  DMChannel_id := fun c => c;
  bytes_to_base64 := strict_base64;
|}.

(** The two collaborators again, for any reading of the imports. *)
Definition serving (I : Imports) : @DiscordAPI I := fun _ req =>
  if String.eqb (method req) "POST" then
    if String.eqb (path req) "/users/@me/channels"
    then Ok {[ "id" := PStr "555" ]}
    else Ok (<[ "id" := PStr "900" ]> {[ "channel_id" := PStr "555" ]})
  else if String.eqb (method req) "DELETE" then Raise (HTTPException 404)
  else Ok bot_record.

Definition refusing (I : Imports) : @DiscordAPI I := fun _ _ =>
  Raise (HTTPException 503).

(** A message with both [embed] and [embeds]. *)
Definition two_embeds : @MessageFields strict :=
  @mkFields strict (Given (Some "hi")) (Given (Some ∅)) (Given (Some []))
            MISSING MISSING MISSING (Some false) (inr 4) MISSING MISSING.

Definition strict_world : @World strict :=
  @mkWorld strict [] [@IPartialUser strict (PartialUser.mk 123)] [].

(** Records that do not parse. *)
Definition no_id : dict := {[ "username" := PStr "al" ]}.
Definition bad_id : dict := <[ "id" := PStr "12a" ]> no_id.
Definition no_username : dict := {[ "id" := PStr "123" ]}.

(** The users the three records parse to. *)
Definition nobody : User.t :=
  User.mk (PartialUser.mk 0) None None PNone PNone PNone PNone None None None
          PNone None PNone.

Definition parsed (data : dict) : User.t :=
  match User.__init__ data with
  | Ok u => u
  | Raise _ => nobody
  end.

Definition al_user : User.t := Eval vm_compute in parsed al.
Definition bot_user : User.t := Eval vm_compute in parsed bot_record.
Definition blank_user : User.t := Eval vm_compute in parsed blank_record.

(** The account [api] answers an edit with. *)
Definition bot_client : UserClient.t := UserClient.mk bot_user (PBool true).

(** The message [api] answers a send with. *)
Definition hi : MessageFields := fields_of (Given (Some "hi")).
Definition posted : message := mkMessage 900 555.

End Reference.

(** ** Vocabulary of the statements *)

(** A key counts for the parser when it is there and its value is truthy. *)
Definition present_and_truthy (data : dict) (k : string) : Prop :=
  exists v, data !! k = Some v /\ truthy v = true.

Section records.
Context `{Imports}.

(** One optional attribute, read on its own: [make(data[k])] under
    [if data.get(k, None)], and [None] otherwise. *)
Definition optional_field {X} (data : dict) (k : string)
    (make : pyval -> result X) : result (option X) :=
  if truthy (get data k PNone)
  then v ← getitem data k; x ← make v; mret (Some x)
  else mret None.

(** The discriminator as it is kept: the string "0" becomes [None]. *)
Definition kept_discriminator (data : dict) : pyval :=
  if eq_str (get data "discriminator" PNone) "0" then PNone
  else get data "discriminator" PNone.

(** The User a record stands for, every attribute read independently of the
    others and in the order in which the constructor may raise. *)
Definition user_of_record (data : dict) : result User.t :=
  raw ← getitem data "id";
  i ← int raw;
  username ← getitem data "username";
  av ← optional_field data "avatar" (Asset_from_avatar i);
  ba ← optional_field data "banner" (Asset_from_banner i);
  ac ← optional_field data "accent_color" Colour_init;
  bc ← optional_field data "banner_color" Colour_from_hex;
  ad ← optional_field data "avatar_decoration" Asset_from_avatar_decoration;
  pf ← optional_field data "public_flags" UserFlags_init;
  mret (User.mk (PartialUser.mk i) av ba username
                (get data "bot" (PBool false))
                (get data "system" (PBool false))
                (kept_discriminator data)
                ac bc ad
                (get data "global_name" PNone)
                pf
                (get data "clan" PNone)).

End records.

Section requests.
Context `{Imports}.
Import http.

(** The request [fetch] issues for the user of id [i]. *)
Definition fetch_request (i : Z) : Request :=
  mkRequest "GET" ("/users/" +:+ str_of_int i) None None None.

(** The request [create_dm] issues for the user of id [i]. *)
Definition dm_request (i : Z) : Request :=
  mkRequest "POST" "/users/@me/channels"
            (Some {[ "recipient_id" := PInt i ]}) None None.

(** The [MessageResponse(...)] call of [send]. *)
Definition payload_of (f : MessageFields) : result MessageResponse :=
  MessageResponse_init (content f) (embed f) (embeds f) (file f) (files f)
                       (view f) (tts f) (type f) (flags f) (allowed_mentions f).

(** The message-creation request of [send] for a resolved channel id. *)
Definition message_request (channel_id : option Z) (payload : MessageResponse)
    (body : Multipart) : Request :=
  mkRequest "POST"
            ("/channels/" +:+ str_of_optional_int channel_id +:+ "/messages")
            None (Some body) (Some {[ "Content-Type" := content_type payload ]}).

(** The profile-update request of [edit]. *)
Definition edit_request (payload : dict) : Request :=
  mkRequest "PATCH" "/users/@me" (Some payload) None None.

(** The request a deferred deletion issues. *)
Definition delete_request (msg : Message) : Request :=
  mkRequest "DELETE" (Message_delete_path msg) None None None.

(** What [edit] stores in its payload for a given argument. *)
Definition stored_name (x : arg (option string)) : option pyval :=
  match x with
  | MISSING => None
  | Given None => Some PNone
  | Given (Some s) => Some (PStr s)
  end.

Definition stored_image (x : arg (option (list Byte.byte)))
    (v : option pyval) : Prop :=
  match x with
  | MISSING => v = None
  | Given None => v = Some PNone
  | Given (Some b) => exists s, bytes_to_base64 b = Ok s /\ v = Some (PStr s)
  end.

Definition is_create_dm (r : Request) : bool :=
  String.eqb (method r) "POST" && String.eqb (path r) "/users/@me/channels".

(** A message-creation request: POST /channels/{id}/messages. *)
Definition message_creation (r : Request) : Prop :=
  method r = "POST" /\ exists c, path r = "/channels/" +:+ c +:+ "/messages".

End requests.

(** * Properties *)

(** ** Reasoning about code that may raise *)

Lemma bind_Ok {A B} (r : result A) (f : A -> result B) (b : B) :
  r ≫= f = Ok b -> exists a, r = Ok a /\ f a = Ok b.
Proof. destruct r as [a|e]; simpl; [eauto | discriminate]. Qed.

Lemma getitem_Ok (d : dict) k v : getitem d k = Ok v <-> d !! k = Some v.
Proof. unfold getitem. destruct (d !! k); split; congruence. Qed.

(** Splits a hypothesis [c ≫= k = Ok b] into its two halves. *)
Ltac ok_inv H :=
  let a := fresh "a" in
  let Ha := fresh "Ha" in
  apply bind_Ok in H; destruct H as (a & Ha & H).

Lemma truthy_get data k :
  truthy (get data k PNone) = true <-> present_and_truthy data k.
Proof.
  unfold get, present_and_truthy. destruct (data !! k) as [v|]; simpl.
  - split; [eauto | intros (v' & [= <-] & Hv); exact Hv].
  - split; [discriminate | intros (v' & [=] & _)].
Qed.

(** ** Parsing a record *)

Section parsing.
Context `{Imports}.

(** One [if data.get(k, None): self.x = make(data[k])] step. *)
Lemma populate_step {X} (data : dict) k (make : pyval -> result X)
    (set : option X -> User.t -> User.t) (self self' : User.t) :
  (if truthy (get data k PNone)
   then getitem data k ≫= λ v, make v ≫= λ a, mret (set (Some a) self)
   else mret self) = Ok self' ->
  if truthy (get data k PNone)
  then exists v a, data !! k = Some v /\ make v = Ok a /\ self' = set (Some a) self
  else self' = self.
Proof.
  destruct (truthy (get data k PNone)); intros Hs.
  - ok_inv Hs. ok_inv Hs. apply getitem_Ok in Ha. injection Hs as <-. eauto.
  - injection Hs as <-. reflexivity.
Qed.

(** What [_from_data] leaves alone and what it fills in. *)
Lemma _from_data_spec (self u : User.t) (data : dict) :
  User._from_data self data = Ok u ->
  User.base u = User.base self /\
  User.name u = User.name self /\
  User.discriminator u = User.discriminator self /\
  User.global_name u = User.global_name self /\
  (User.avatar self = None ->
   is_Some (User.avatar u) <-> present_and_truthy data "avatar") /\
  (User.banner self = None ->
   is_Some (User.banner u) <-> present_and_truthy data "banner") /\
  (User.accent_colour self = None ->
   is_Some (User.accent_colour u) <-> present_and_truthy data "accent_color") /\
  (User.banner_colour self = None ->
   is_Some (User.banner_colour u) <-> present_and_truthy data "banner_color") /\
  (User.avatar_decoration self = None ->
   is_Some (User.avatar_decoration u)
   <-> present_and_truthy data "avatar_decoration") /\
  (User.public_flags self = None ->
   is_Some (User.public_flags u) <-> present_and_truthy data "public_flags").
Proof.
  unfold User._from_data. intros Hu.
  ok_inv Hu. apply populate_step in Ha.
  ok_inv Hu. apply populate_step in Ha0.
  ok_inv Hu. apply populate_step in Ha1.
  ok_inv Hu. apply populate_step in Ha2.
  ok_inv Hu. apply populate_step in Ha3.
  apply populate_step in Hu.
  rewrite <- !truthy_get.
  destruct (truthy (get data "avatar" PNone));
    [destruct Ha as (? & ? & _ & _ & ->) | subst a];
  (destruct (truthy (get data "banner" PNone));
    [destruct Ha0 as (? & ? & _ & _ & ->) | subst a0]);
  (destruct (truthy (get data "accent_color" PNone));
    [destruct Ha1 as (? & ? & _ & _ & ->) | subst a1]);
  (destruct (truthy (get data "banner_color" PNone));
    [destruct Ha2 as (? & ? & _ & _ & ->) | subst a2]);
  (destruct (truthy (get data "avatar_decoration" PNone));
    [destruct Ha3 as (? & ? & _ & _ & ->) | subst a3]);
  (destruct (truthy (get data "public_flags" PNone));
    [destruct Hu as (? & ? & _ & _ & ->) | subst u]);
  simpl; split_and!; try reflexivity;
  intros Hnone; rewrite ?Hnone; split; intros Hx;
  first [ discriminate Hx | by apply is_Some_None in Hx | done ].
Qed.

(** What a successful [User(...)] call read from the record. *)
Lemma init_spec (data : dict) (u : User.t) :
  User.__init__ data = Ok u ->
  (exists raw, data !! "id" = Some raw /\ int raw = Ok (User.id u)) /\
  data !! "username" = Some (User.name u) /\
  User.discriminator u =
    (if eq_str (get data "discriminator" PNone) "0" then PNone
     else get data "discriminator" PNone) /\
  User.global_name u = get data "global_name" PNone /\
  (is_Some (User.avatar u) <-> present_and_truthy data "avatar") /\
  (is_Some (User.banner u) <-> present_and_truthy data "banner") /\
  (is_Some (User.accent_colour u) <-> present_and_truthy data "accent_color") /\
  (is_Some (User.banner_colour u) <-> present_and_truthy data "banner_color") /\
  (is_Some (User.avatar_decoration u)
   <-> present_and_truthy data "avatar_decoration") /\
  (is_Some (User.public_flags u) <-> present_and_truthy data "public_flags").
Proof.
  unfold User.__init__. intros Hu.
  ok_inv Hu. apply getitem_Ok in Ha.
  ok_inv Hu. ok_inv Hu. simpl in Ha1. injection Ha1 as <-.
  ok_inv Hu. apply getitem_Ok in Ha1.
  cbv zeta in Hu. cbn [User.discriminator] in Hu. revert Hu.
  destruct (eq_str (get data "discriminator" PNone) "0") eqn:Hz;
    intros Hu; apply _from_data_spec in Hu; simpl in Hu;
    destruct Hu as (Hb & Hn & Hd & Hg & Hav & Hba & Hac & Hbc & Had & Hpf);
    unfold User.id; rewrite Hb, Hn, Hd, Hg; simpl;
    split_and!; eauto.
Qed.

(** C4: in a parsed User each optional attribute (avatar, banner, accent
    colour, banner colour, avatar decoration, public flags) is populated
    exactly when its key is present with a truthy value; otherwise the
    attribute is [None], and reading it is a plain projection that cannot
    raise. *)
Theorem C4_optional_fields (data : dict) (u : User.t) :
  User.__init__ data = Ok u ->
  ((is_Some (User.avatar u) <-> present_and_truthy data "avatar") /\
   (is_Some (User.banner u) <-> present_and_truthy data "banner") /\
   (is_Some (User.accent_colour u) <-> present_and_truthy data "accent_color") /\
   (is_Some (User.banner_colour u) <-> present_and_truthy data "banner_color") /\
   (is_Some (User.avatar_decoration u)
    <-> present_and_truthy data "avatar_decoration") /\
   (is_Some (User.public_flags u) <-> present_and_truthy data "public_flags")) /\
  ((~ present_and_truthy data "avatar" -> User.avatar u = None) /\
   (~ present_and_truthy data "banner" -> User.banner u = None) /\
   (~ present_and_truthy data "accent_color" -> User.accent_colour u = None) /\
   (~ present_and_truthy data "banner_color" -> User.banner_colour u = None) /\
   (~ present_and_truthy data "avatar_decoration"
    -> User.avatar_decoration u = None) /\
   (~ present_and_truthy data "public_flags" -> User.public_flags u = None)).
Proof.
  intros Hu. apply init_spec in Hu.
  destruct Hu as (_ & _ & _ & _ & Hav & Hba & Hac & Hbc & Had & Hpf).
  split; [by split_and! |].
  split_and!; intros Hn; apply eq_None_not_Some; tauto.
Qed.

(** C5: a record whose discriminator is the string "0" parses to a User
    with no discriminator, and any other discriminator string (empty or
    not) is stored unchanged. *)
Theorem C5_discriminator (data : dict) (u : User.t) (s : string) :
  User.__init__ data = Ok u ->
  data !! "discriminator" = Some (PStr s) ->
  User.discriminator u = if bool_decide (s = "0") then PNone else PStr s.
Proof.
  intros Hu Hd. apply init_spec in Hu.
  destruct Hu as (_ & _ & -> & _).
  unfold get. rewrite Hd. simpl. reflexivity.
Qed.

(** C6, as the code has it: display_name is global_name when global_name is
    truthy, and the username when global_name is None or otherwise falsy
    (the empty string). *)
Theorem C6_display_name (u : User.t) :
  User.display_name u =
    (if truthy (User.global_name u) then User.global_name u else User.name u) /\
  (User.global_name u = PNone -> User.display_name u = User.name u) /\
  (forall s, User.global_name u = PStr s -> s <> "" ->
             User.display_name u = PStr s) /\
  (User.global_name u = PStr "" -> User.display_name u = User.name u).
Proof.
  unfold User.display_name, py_or. split_and!.
  - reflexivity.
  - intros ->. reflexivity.
  - intros s -> Hs. destruct s; [done | reflexivity].
  - intros ->. reflexivity.
Qed.

(** The index of the default avatar stays inside the enumeration. *)
Lemma default_avatar_index_spec (p : PartialUser.t) :
  (0 < DefaultAvatarType_len)%nat ->
  let n := Z.of_nat DefaultAvatarType_len in
  PartialUser.default_avatar_index p = Ok (Z.shiftr (PartialUser.id p) 22 mod n) /\
  0 <= Z.shiftr (PartialUser.id p) 22 mod n < n.
Proof.
  intros Hlen n. unfold PartialUser.default_avatar_index. fold n.
  assert (0 < n) as Hn by (unfold n; lia).
  destruct (Z.eqb_spec n 0) as [?|_]; [lia |].
  split; [reflexivity | by apply Z.mod_pos_bound].
Qed.

(** C7: display_avatar is the explicit avatar when one is set (an Asset
    being truthy, as any plain object), and the default avatar otherwise;
    the default avatar is built from the variant of index
    (id >> 22) mod len(DefaultAvatarType), which lies inside the
    enumeration, and users with equal ids get equal default avatars. *)
Theorem C7_display_avatar (u : User.t) :
  (0 < DefaultAvatarType_len)%nat ->
  let n := Z.of_nat DefaultAvatarType_len in
  let variant := Z.shiftr (User.id u) 22 mod n in
  (forall a, User.avatar u = Some a -> Asset_bool a = true ->
             User.display_avatar u = Ok a) /\
  (User.avatar u = None -> User.display_avatar u = User.default_avatar u) /\
  User.default_avatar u = Asset_from_default_avatar variant /\
  0 <= variant < n /\
  (forall u' : User.t, User.id u' = User.id u ->
                       User.default_avatar u' = User.default_avatar u).
Proof.
  intros Hlen n variant.
  destruct (default_avatar_index_spec (User.base u) Hlen) as [Hi Hb].
  unfold User.display_avatar, User.default_avatar, PartialUser.default_avatar.
  split_and!.
  - intros a -> ->. reflexivity.
  - intros ->. reflexivity.
  - rewrite Hi. reflexivity.
  - apply Hb.
  - apply Hb.
  - intros u' Hid.
    unfold PartialUser.default_avatar_index. unfold User.id in Hid.
    rewrite Hid. reflexivity.
Qed.

End parsing.

(** ** Printing an id and reading it back *)

Section decimal.

(** The characters [str] prints for an unsigned decimal. *)
Local Abbreviation chars d := (list_ascii_of_string (NilEmpty.string_of_uint d)).

Lemma digits_acc (d : Decimal.uint) (acc : positive) :
  digits (Z.pos acc) true (chars d) = Some (Z.pos (Pos.of_uint_acc d acc)).
Proof.
  revert acc. induction d as [|d IH|d IH|d IH|d IH|d IH|d IH|d IH|d IH|d IH|d IH];
    intros acc; [reflexivity | ..];
    cbn [NilEmpty.string_of_uint list_ascii_of_string digits Pos.of_uint_acc];
    change (digit_of _) with (Some 0) || change (digit_of _) with (Some 1)
    || change (digit_of _) with (Some 2) || change (digit_of _) with (Some 3)
    || change (digit_of _) with (Some 4) || change (digit_of _) with (Some 5)
    || change (digit_of _) with (Some 6) || change (digit_of _) with (Some 7)
    || change (digit_of _) with (Some 8) || change (digit_of _) with (Some 9);
    rewrite <- IH; f_equal; lia.
Qed.

Lemma digits_leading (d : Decimal.uint) (b : bool) :
  d <> Decimal.Nil \/ b = true ->
  digits 0 b (chars d) = Some (Z.of_N (Pos.of_uint d)).
Proof.
  revert b. induction d as [|d IH|d IH|d IH|d IH|d IH|d IH|d IH|d IH|d IH|d IH];
    intros b Hb.
  - destruct Hb as [Hb | ->]; [done | reflexivity].
  - apply (IH true). by right.
  - apply (digits_acc d 1).
  - apply (digits_acc d 2).
  - apply (digits_acc d 3).
  - apply (digits_acc d 4).
  - apply (digits_acc d 5).
  - apply (digits_acc d 6).
  - apply (digits_acc d 7).
  - apply (digits_acc d 8).
  - apply (digits_acc d 9).
Qed.

Lemma chars_no_space (d : Decimal.uint) :
  Forall (λ c, is_space c = false) (chars d).
Proof. induction d; simpl; constructor; done. Qed.

Lemma lstrip_no_space (l : list ascii) :
  Forall (λ c, is_space c = false) l -> lstrip l = l.
Proof. destruct 1 as [|c l Hc _]; simpl; [done | by rewrite Hc]. Qed.

Lemma strip_no_space (l : list ascii) :
  Forall (λ c, is_space c = false) l -> strip l = l.
Proof.
  intros Hl. unfold strip. rewrite (lstrip_no_space l Hl).
  rewrite lstrip_no_space; [apply rev_involutive |].
  rewrite Forall_forall in Hl. apply Forall_forall. intros c Hc.
  apply Hl, list_elem_of_In, in_rev, list_elem_of_In, Hc.
Qed.

Lemma string_of_uint_cases (d : Decimal.uint) :
  d = Decimal.Nil \/
  (d <> Decimal.Nil /\ NilZero.string_of_uint d = NilEmpty.string_of_uint d).
Proof. destruct d; [by left | by right ..]. Qed.

(** [int(str(z)) == z] *)
Lemma int_of_str_of_int (z : Z) : int_of_str (str_of_int z) = Some z.
Proof.
  unfold str_of_int, int_of_str.
  rewrite <- (DecimalZ.of_to z) at 2.
  destruct (Z.to_int z) as [d|d]; simpl; unfold Z.of_uint;
    destruct (string_of_uint_cases d) as [-> | [Hd ->]]; try reflexivity.
  - rewrite (strip_no_space _ (chars_no_space d)).
    rewrite <- (digits_leading d false) by (by left).
    by destruct d.
  - rewrite (strip_no_space ("-"%char :: chars d))
      by (constructor; [done | apply chars_no_space]).
    rewrite (digits_leading d false) by (by left). reflexivity.
Qed.

Lemma str_of_int_inj (a b : Z) : str_of_int a = str_of_int b -> a = b.
Proof.
  intros Hab. pose proof (int_of_str_of_int a) as Ha.
  rewrite Hab, int_of_str_of_int in Ha. congruence.
Qed.

Lemma length_append (s u : string) :
  String.length (s +:+ u) = (String.length s + String.length u)%nat.
Proof. induction s as [|c s IH]; simpl; [done | by rewrite IH]. Qed.

Lemma append_inj_r (s t u : string) : s +:+ u = t +:+ u -> s = t.
Proof.
  intros Hst.
  assert (String.length s = String.length t) as Hlen.
  { apply (f_equal String.length) in Hst.
    rewrite !length_append in Hst. lia. }
  revert t Hst Hlen. induction s as [|c s IH]; intros [|c' t]; simpl;
    intros Hst Hlen; try done.
  injection Hst as -> Hst. f_equal. apply IH; [done | lia].
Qed.

End decimal.

(** ** Mentions *)

Section mentions.
Context `{Imports}.

(** C8: the mention of a user is "<@!" followed by the decimal id and ">";
    it names that id and no other (users with different ids have different
    mentions); a User parsed from a record whose id is the string "123"
    mentions as "<@!123>". *)
Theorem C8_mention :
  (forall p : PartialUser.t,
     PartialUser.mention p = "<@!" +:+ str_of_int (PartialUser.id p) +:+ ">") /\
  (forall p q : PartialUser.t,
     PartialUser.mention p = PartialUser.mention q ->
     PartialUser.id p = PartialUser.id q) /\
  (forall (data : dict) (u : User.t),
     data !! "id" = Some (PStr "123") ->
     User.__init__ data = Ok u ->
     User.id u = 123 /\ User.mention u = "<@!123>").
Proof.
  split_and!.
  - reflexivity.
  - intros p q Hpq. unfold PartialUser.mention in Hpq. simpl in Hpq.
    injection Hpq as Hpq. change ("" +:+ ?x) with x in Hpq.
    apply append_inj_r in Hpq.
    by apply str_of_int_inj.
  - intros data u Hid Hu. apply init_spec in Hu.
    destruct Hu as ((raw & Hraw & Hint) & _).
    rewrite Hid in Hraw. injection Hraw as <-.
    assert (User.id u = 123) as Hu.
    { assert (int (PStr "123") = Ok 123) as Hparse by reflexivity.
      rewrite Hparse in Hint. by injection Hint. }
    split; [exact Hu |].
    unfold User.mention, PartialUser.mention. unfold User.id in Hu.
    rewrite Hu. reflexivity.
Qed.

End mentions.

(** ** The coroutines *)

Section coroutine_facts.
Context `{Imports}.
Import http.
Variable api : DiscordAPI.

(** Runs the code in the goal, splitting on every call that may raise. *)
Ltac run :=
  repeat (simpl;
          match goal with
          | |- context [match ?x with _ => _ end] =>
              lazymatch x with
              | context [match _ with _ => _ end] => fail
              | _ => destruct x eqn:?
              end
          end);
  simpl.

Lemma dm_request_not_message_creation (i : Z) :
  ~ message_creation (dm_request i).
Proof. intros [_ [c Hc]]. discriminate Hc. Qed.

Lemma message_request_is_message_creation c payload body :
  message_creation (message_request c payload body) /\
  is_create_dm (message_request c payload body) = false.
Proof. split; [split; [done | by eexists] | reflexivity]. Qed.

(** C1: with no channel id, send first issues the create_dm request for the
    receiver, then exactly one message-creation request against the id of
    the channel that came back, and returns the Message parsed from the
    answer; with a channel id, whatever happens, it issues at most one
    request and none that creates a DM channel. *)
Theorem C1_send_requests :
  (forall (w : World) (self : loc) (o : instance) (f : MessageFields)
          (delete_after : option float) (r1 r2 : dict) (ch : DMChannel)
          (payload : MessageResponse) (body : Multipart) (msg : Message),
     heap w !! self = Some o ->
     api (trace w) (dm_request (instance_id o)) = Ok r1 ->
     DMChannel_init r1 = Ok ch ->
     payload_of f = Ok payload ->
     to_multipart payload true = Ok body ->
     api (trace w ++ [dm_request (instance_id o)])
         (message_request (Some (DMChannel_id ch)) payload body) = Ok r2 ->
     Message_init r2 = Ok msg ->
     let out := send api self f MISSING delete_after w in
     out.2 = Ok msg /\
     trace out.1 =
       trace w ++ [dm_request (instance_id o);
                   message_request (Some (DMChannel_id ch)) payload body] /\
     ~ message_creation (dm_request (instance_id o)) /\
     message_creation (message_request (Some (DMChannel_id ch)) payload body)) /\
  (forall (w : World) (self : loc) (f : MessageFields) (c : option Z)
          (delete_after : option float),
     let out := send api self f (Given c) delete_after w in
     exists added,
       trace out.1 = trace w ++ added /\
       (length added <= 1)%nat /\
       Forall (λ r, is_create_dm r = false) added).
Proof.
  split.
  - intros w self o f delete_after r1 r2 ch payload body msg
           Ho Hr1 Hch Hp Hb Hr2 Hmsg out.
    subst out.
    assert (send api self f MISSING delete_after w =
            (mkWorld (trace w ++ [dm_request (instance_id o);
                        message_request (Some (DMChannel_id ch)) payload body])
                     (heap w)
                     (spawned w ++ match delete_after with
                                   | Some d => [mkTask d msg]
                                   | None => []
                                   end),
             Ok msg)) as ->.
    { unfold send, create_dm, attr_id, query, lift, Message_delete.
      unfold payload_of, dm_request, message_request in *.
      unfold mbind, M_bind, mret, M_ret. simpl in *.
      rewrite Ho. simpl. rewrite Hr1. simpl. rewrite Hch. simpl.
      rewrite Hp. simpl. rewrite Hb. simpl. rewrite Hr2. simpl.
      rewrite Hmsg. simpl.
      destruct delete_after; simpl; rewrite <- app_assoc, ?app_nil_r; done. }
    split; [reflexivity |]. split; [reflexivity |].
    split; [apply dm_request_not_message_creation |].
    apply message_request_is_message_creation.
  - intros w self f c delete_after out. subst out.
    unfold send, query, lift, Message_delete.
    unfold mbind, M_bind, mret, M_ret.
    destruct delete_after; run;
      first [ exists []; rewrite app_nil_r; split_and!;
                [reflexivity | simpl; lia | constructor]
            | eexists [_]; split_and!;
                [reflexivity | simpl; lia | by repeat constructor] ].
Qed.

(** With [delete_after] set, [send] does what it does without it and then
    hands the deletion to the event loop. *)
Lemma send_delete_after (w : World) (self : loc) (f : MessageFields)
    (channel_id : arg (option Z)) (d : float) :
  send api self f channel_id (Some d) w =
    match send api self f channel_id None w with
    | (w', Ok msg) =>
        (mkWorld (trace w') (heap w') (spawned w' ++ [mkTask d msg]), Ok msg)
    | (w', Raise e) => (w', Raise e)
    end.
Proof.
  unfold send, create_dm, attr_id, query, lift, Message_delete.
  unfold mbind, M_bind, mret, M_ret.
  destruct channel_id; run; reflexivity.
Qed.

(** C2: when the collaborator answers and the parsers accept, send with
    delete_after set returns the sent Message and leaves its deletion with
    the event loop as one detached task, after the same requests as without
    delete_after, with or without a channel id.  The task, when it runs,
    only issues its deletion request: whatever the collaborator answers to
    it, an error included, nothing is raised and the Message send returned
    stands.  In every case send with delete_after returns or raises exactly
    as it does without it. *)
Theorem C2_delete_after_detached :
  (forall (w : World) (self : loc) (f : MessageFields) (c : option Z)
          (d : float) (payload : MessageResponse) (body : Multipart)
          (r : dict) (msg : Message),
     payload_of f = Ok payload ->
     to_multipart payload true = Ok body ->
     api (trace w) (message_request c payload body) = Ok r ->
     Message_init r = Ok msg ->
     let out := send api self f (Given c) (Some d) w in
     out.2 = Ok msg /\
     trace out.1 = trace w ++ [message_request c payload body] /\
     heap out.1 = heap w /\
     spawned out.1 = spawned w ++ [mkTask d msg] /\
     forall (api' : DiscordAPI),
       let v := run_task api' (mkTask d msg) out.1 in
       trace v = trace out.1 ++ [delete_request msg] /\
       heap v = heap out.1 /\ spawned v = spawned out.1) /\
  (forall (w : World) (self : loc) (o : instance) (f : MessageFields)
          (d : float) (r1 r2 : dict) (ch : DMChannel)
          (payload : MessageResponse) (body : Multipart) (msg : Message),
     heap w !! self = Some o ->
     api (trace w) (dm_request (instance_id o)) = Ok r1 ->
     DMChannel_init r1 = Ok ch ->
     payload_of f = Ok payload ->
     to_multipart payload true = Ok body ->
     api (trace w ++ [dm_request (instance_id o)])
         (message_request (Some (DMChannel_id ch)) payload body) = Ok r2 ->
     Message_init r2 = Ok msg ->
     let out := send api self f MISSING (Some d) w in
     out.2 = Ok msg /\
     trace out.1 =
       trace w ++ [dm_request (instance_id o);
                   message_request (Some (DMChannel_id ch)) payload body] /\
     heap out.1 = heap w /\
     spawned out.1 = spawned w ++ [mkTask d msg] /\
     forall (api' : DiscordAPI),
       let v := run_task api' (mkTask d msg) out.1 in
       trace v = trace out.1 ++ [delete_request msg] /\
       heap v = heap out.1 /\ spawned v = spawned out.1) /\
  (forall (w : World) (self : loc) (f : MessageFields)
          (channel_id : arg (option Z)) (d : float),
     let plain := send api self f channel_id None w in
     let timed := send api self f channel_id (Some d) w in
     timed.2 = plain.2 /\
     trace timed.1 = trace plain.1 /\
     heap timed.1 = heap plain.1 /\
     spawned timed.1 =
       spawned plain.1 ++ match plain.2 with
                          | Ok msg => [mkTask d msg]
                          | Raise _ => []
                          end).
Proof.
  split_and!.
  - intros w self f c d payload body r msg Hp Hb Hr Hmsg out. subst out.
    assert (send api self f (Given c) (Some d) w =
            (mkWorld (trace w ++ [message_request c payload body]) (heap w)
                     (spawned w ++ [mkTask d msg]), Ok msg)) as ->.
    { unfold send, query, lift, Message_delete.
      unfold payload_of, message_request in *.
      unfold mbind, M_bind, mret, M_ret. simpl in *.
      rewrite Hp. simpl. rewrite Hb. simpl. rewrite Hr. simpl.
      rewrite Hmsg. reflexivity. }
    cbn [fst snd trace heap spawned]. split_and!; try reflexivity.
    intros api'. cbv zeta. split_and!; reflexivity.
  - intros w self o f d r1 r2 ch payload body msg
           Ho Hr1 Hch Hp Hb Hr2 Hmsg out. subst out.
    assert (send api self f MISSING (Some d) w =
            (mkWorld (trace w ++ [dm_request (instance_id o);
                        message_request (Some (DMChannel_id ch)) payload body])
                     (heap w) (spawned w ++ [mkTask d msg]), Ok msg)) as ->.
    { unfold send, create_dm, attr_id, query, lift, Message_delete.
      unfold payload_of, dm_request, message_request in *.
      unfold mbind, M_bind, mret, M_ret. simpl in *.
      rewrite Ho. simpl. rewrite Hr1. simpl. rewrite Hch. simpl.
      rewrite Hp. simpl. rewrite Hb. simpl. rewrite Hr2. simpl.
      rewrite Hmsg. simpl. by rewrite <- app_assoc. }
    cbn [fst snd trace heap spawned]. split_and!; try reflexivity.
    intros api'. cbv zeta. split_and!; reflexivity.
  - intros w self f channel_id d plain timed. subst plain timed.
    rewrite send_delete_after.
    destruct (send api self f channel_id None w) as [w' [msg|e]]; simpl;
      rewrite ?app_nil_r; split_and!; reflexivity.
Qed.

(** The keys [edit] may store. *)
Lemma edit_payload_keys (username : arg (option string))
    (avatar banner : arg (option (list Byte.byte))) (payload : dict) :
  edit_payload username avatar banner = Ok payload ->
  payload !! "username" = stored_name username /\
  stored_image avatar (payload !! "avatar") /\
  stored_image banner (payload !! "banner") /\
  (forall k, k <> "username" -> k <> "avatar" -> k <> "banner" ->
             payload !! k = None).
Proof.
  unfold edit_payload, stored_name, stored_image. intros Hp.
  destruct username as [|[u|]], avatar as [|[a|]], banner as [|[b|]];
    simpl in Hp;
    repeat match type of Hp with
           | context [bytes_to_base64 ?x] =>
               destruct (bytes_to_base64 x) as [?s|?e] eqn:?; simpl in Hp
           end;
    try discriminate Hp; injection Hp as <-;
    (split_and!; [..| intros k ? ? ?]); simplify_map_eq; eauto.
Qed.

Lemma edit_run (w : World) (self : loc) (username : arg (option string))
    (avatar banner : arg (option (list Byte.byte)))
    (payload r : dict) (c : UserClient.t) :
  edit_payload username avatar banner = Ok payload ->
  api (trace w) (edit_request payload) = Ok r ->
  UserClient.__init__ r = Ok c ->
  edit api self username avatar banner w =
    (mkWorld (trace w ++ [edit_request payload]) (heap w ++ [IUserClient c])
             (spawned w),
     Ok (length (heap w))).
Proof.
  intros Hp Hr Hc. unfold edit, query, lift, new, edit_request in *.
  unfold mbind, M_bind, mret, M_ret.
  rewrite Hp. cbn [trace heap spawned]. rewrite Hr, Hc. reflexivity.
Qed.

(** C3: the payload of edit holds the key username, avatar or banner exactly
    when that argument was given; a given None is stored as null, given
    bytes are stored as what bytes_to_base64 makes of them, and no other key
    is stored, so that edit() sends the empty payload.  The request is
    PATCH /users/@me with that payload, and the call returns a new object
    holding the UserClient parsed from the answer, whatever the receiver
    holds. *)
Theorem C3_edit (w : World) (self : loc) (username : arg (option string))
    (avatar banner : arg (option (list Byte.byte)))
    (payload r : dict) (c : UserClient.t) :
  edit_payload username avatar banner = Ok payload ->
  api (trace w) (edit_request payload) = Ok r ->
  UserClient.__init__ r = Ok c ->
  ((is_Some (payload !! "username") <-> username <> MISSING) /\
   (is_Some (payload !! "avatar") <-> avatar <> MISSING) /\
   (is_Some (payload !! "banner") <-> banner <> MISSING)) /\
  (payload !! "username" = stored_name username /\
   stored_image avatar (payload !! "avatar") /\
   stored_image banner (payload !! "banner")) /\
  (forall k, k <> "username" -> k <> "avatar" -> k <> "banner" ->
             payload !! k = None) /\
  edit_payload MISSING MISSING MISSING = Ok ∅ /\
  let out := edit api self username avatar banner w in
  trace out.1 = trace w ++ [edit_request payload] /\
  heap out.1 = heap w ++ [IUserClient c] /\
  out.2 = Ok (length (heap w)) /\
  heap w !! length (heap w) = None /\
  heap out.1 !! length (heap w) = Some (IUserClient c).
Proof.
  intros Hp Hr Hc.
  destruct (edit_payload_keys _ _ _ _ Hp) as (Hu & Ha & Hb & Hk).
  split_and!; try done.
  - rewrite Hu. destruct username as [|[?|]]; simpl;
      split; try done; by intros [].
  - unfold stored_image in Ha. destruct avatar as [|[?|]].
    + rewrite Ha. split; [by intros [] | done].
    + destruct Ha as (s & _ & ->). done.
    + rewrite Ha. done.
  - unfold stored_image in Hb. destruct banner as [|[?|]].
    + rewrite Hb. split; [by intros [] | done].
    + destruct Hb as (s & _ & ->). done.
    + rewrite Hb. done.
  - intros out. subst out.
    rewrite (edit_run w self _ _ _ _ _ _ Hp Hr Hc). simpl.
    split_and!; try reflexivity.
    + apply lookup_ge_None. lia.
    + rewrite lookup_app_r by lia. by rewrite Nat.sub_diag.
Qed.

(** [send] and [create_dm] construct no object of this file; [fetch] and
    [edit] construct one when they return. *)
Lemma send_heap (w : World) (self : loc) (f : MessageFields)
    (channel_id : arg (option Z)) (delete_after : option float) :
  heap (send api self f channel_id delete_after w).1 = heap w.
Proof.
  unfold send, create_dm, attr_id, query, lift, Message_delete.
  unfold mbind, M_bind, mret, M_ret.
  destruct channel_id, delete_after; run; reflexivity.
Qed.

Lemma create_dm_heap (w : World) (self : loc) :
  heap (create_dm api self w).1 = heap w.
Proof.
  unfold create_dm, attr_id, query, lift.
  unfold mbind, M_bind, mret, M_ret. run; reflexivity.
Qed.

Lemma fetch_heap (w : World) (self : loc) :
  let out := fetch api self w in
  (heap out.1 = heap w /\ is_ok out.2 = false) \/
  (exists u, heap out.1 = heap w ++ [IUser u] /\ out.2 = Ok (length (heap w))).
Proof.
  unfold fetch, attr_id, query, lift, new.
  unfold mbind, M_bind, mret, M_ret. run; eauto.
Qed.

Lemma edit_heap (w : World) (self : loc) (username : arg (option string))
    (avatar banner : arg (option (list Byte.byte))) :
  let out := edit api self username avatar banner w in
  (heap out.1 = heap w /\ is_ok out.2 = false) \/
  (exists c, heap out.1 = heap w ++ [IUserClient c]
             /\ out.2 = Ok (length (heap w))).
Proof.
  unfold edit, query, lift, new.
  unfold mbind, M_bind, mret, M_ret.
  destruct (edit_payload username avatar banner); run; eauto.
Qed.

(** An object that was there is still there, unchanged, after the store
    grew at its end. *)
Lemma lookup_grown (h : list instance) (extra : list instance) (l : loc)
    (o : instance) :
  h !! l = Some o -> (h ++ extra) !! l = Some o.
Proof. intros Hl. by apply lookup_app_l_Some. Qed.

(** C9: send, create_dm, fetch and edit leave the receiver as it was: after
    the call the object at the receiver's address is the object that was
    there, id and every other attribute included.  What fetch and edit
    return is the address of a new object, one that did not exist before
    the call and is not the receiver. *)
Theorem C9_receiver_unchanged (w : World) (self : loc) (o : instance) :
  heap w !! self = Some o ->
  (forall f channel_id delete_after,
     heap (send api self f channel_id delete_after w).1 !! self = Some o) /\
  heap (create_dm api self w).1 !! self = Some o /\
  heap (fetch api self w).1 !! self = Some o /\
  (forall username avatar banner,
     heap (edit api self username avatar banner w).1 !! self = Some o) /\
  (forall l, (fetch api self w).2 = Ok l ->
             l <> self /\ heap w !! l = None /\
             exists u, heap (fetch api self w).1 !! l = Some (IUser u)) /\
  (forall username avatar banner l,
     (edit api self username avatar banner w).2 = Ok l ->
     l <> self /\ heap w !! l = None /\
     exists c, heap (edit api self username avatar banner w).1 !! l
               = Some (IUserClient c)).
Proof.
  intros Ho.
  assert (self < length (heap w))%nat as Hlt by (by eapply lookup_lt_Some).
  assert (forall x, (heap w ++ [x]) !! length (heap w) = Some x) as Hnew.
  { intros x. rewrite lookup_app_r by lia. by rewrite Nat.sub_diag. }
  split_and!.
  - intros f channel_id delete_after. by rewrite send_heap.
  - by rewrite create_dm_heap.
  - destruct (fetch_heap w self) as [[-> _] | (u & -> & _)];
      [done | by apply lookup_grown].
  - intros username avatar banner.
    destruct (edit_heap w self username avatar banner)
      as [[-> _] | (c & -> & _)]; [done | by apply lookup_grown].
  - intros l Hl.
    destruct (fetch_heap w self) as [[_ Hf] | (u & -> & Hr)].
    + rewrite Hl in Hf. discriminate Hf.
    + rewrite Hl in Hr. injection Hr as ->.
      split_and!; [lia | apply lookup_ge_None; lia | by exists u].
  - intros username avatar banner l Hl.
    destruct (edit_heap w self username avatar banner)
      as [[_ Hf] | (c & -> & Hr)].
    + rewrite Hl in Hf. discriminate Hf.
    + rewrite Hl in Hr. injection Hr as ->.
      split_and!; [lia | apply lookup_ge_None; lia | by exists c].
Qed.

(** C10: an explicit [channel_id=None] is not the omitted argument: send
    then issues its message-creation request against the path
    /channels/None/messages and nothing before it, while with the argument
    omitted the first request is the creation of the DM channel. *)
Theorem C10_explicit_None (w : World) (self : loc) (o : instance)
    (f : MessageFields) (delete_after : option float)
    (payload : MessageResponse) (body : Multipart) :
  heap w !! self = Some o ->
  payload_of f = Ok payload ->
  to_multipart payload true = Ok body ->
  trace (send api self f (Given None) delete_after w).1 =
    trace w ++ [mkRequest "POST" "/channels/None/messages" None (Some body)
                  (Some {[ "Content-Type" := content_type payload ]})] /\
  exists rest,
    trace (send api self f MISSING delete_after w).1 =
      trace w ++ dm_request (instance_id o) :: rest.
Proof.
  intros Ho Hp Hb. unfold payload_of in Hp. split.
  - unfold send, query, lift, Message_delete.
    unfold mbind, M_bind, mret, M_ret.
    cbn [trace heap spawned]. rewrite Hp, Hb.
    destruct delete_after; run; reflexivity.
  - unfold send, create_dm, attr_id, query, lift, Message_delete, dm_request.
    unfold mbind, M_bind, mret, M_ret.
    rewrite Ho. cbn [trace heap spawned]. rewrite Hp, Hb.
    destruct delete_after; run; rewrite <- ?app_assoc; by eexists.
Qed.

End coroutine_facts.

(** ** The statements at work on the reference instance *)

Section examples.
Import http.
#[local] Existing Instance Reference.imports.

Lemma C1_send_requests_witness :
  let out := send Reference.api 0%nat Reference.hi MISSING (Some 5%float)
                  Reference.world in
  out.2 = Ok Reference.posted /\
  trace out.1 =
    [dm_request 123;
     message_request (Some 555) (Reference.mkResponse (Some "hi") false) "hi"] /\
  ~ message_creation (dm_request 123) /\
  message_creation
    (message_request (Some 555) (Reference.mkResponse (Some "hi") false) "hi").
Proof.
  apply (proj1 (C1_send_requests Reference.api) Reference.world 0%nat
           (IPartialUser (PartialUser.mk 123)) Reference.hi (Some 5%float)
           {[ "id" := PStr "555" ]}
           (<[ "id" := PStr "900" ]> {[ "channel_id" := PStr "555" ]})
           555 (Reference.mkResponse (Some "hi") false) "hi"%string
           Reference.posted);
    reflexivity.
Defined.

Lemma C2_delete_after_detached_witness :
  let out := send Reference.api 0%nat Reference.hi MISSING (Some 5%float)
                  Reference.world in
  let out' := send Reference.api 0%nat Reference.hi (Given (Some 555))
                   (Some 5%float) Reference.world in
  (out.2 = Ok Reference.posted /\
   spawned out.1 = [mkTask 5%float Reference.posted] /\
   trace out.1 =
     [dm_request 123;
      message_request (Some 555) (Reference.mkResponse (Some "hi") false)
                      "hi"]) /\
  (out'.2 = Ok Reference.posted /\
   spawned out'.1 = [mkTask 5%float Reference.posted]) /\
  Reference.api (trace out.1) (delete_request Reference.posted)
    = Raise (HTTPException 404) /\
  trace (run_task Reference.api (mkTask 5%float Reference.posted) out.1)
    = trace out.1 ++ [delete_request Reference.posted].
Proof.
  intros out out'.
  destruct (C2_delete_after_detached Reference.api) as (Hgiven & Hmissing & _).
  destruct (Hmissing Reference.world 0%nat (IPartialUser (PartialUser.mk 123))
              Reference.hi 5%float {[ "id" := PStr "555" ]}
              (<[ "id" := PStr "900" ]> {[ "channel_id" := PStr "555" ]})
              555 (Reference.mkResponse (Some "hi") false) "hi"%string
              Reference.posted eq_refl eq_refl eq_refl eq_refl eq_refl
              eq_refl eq_refl)
    as (Hres & Htrace & _ & Hspawn & Htask).
  destruct (Hgiven Reference.world 0%nat Reference.hi (Some 555) 5%float
              (Reference.mkResponse (Some "hi") false) "hi"%string
              (<[ "id" := PStr "900" ]> {[ "channel_id" := PStr "555" ]})
              Reference.posted eq_refl eq_refl eq_refl eq_refl)
    as (Hres' & _ & _ & Hspawn' & _).
  destruct (Htask Reference.api) as (Hrun & _).
  exact (conj (conj Hres (conj Hspawn Htrace))
           (conj (conj Hres' Hspawn') (conj eq_refl Hrun))).
Defined.

Lemma C3_edit_witness :
  let out := edit Reference.api 0%nat (Given None)
                  (Given (Some [Byte.x4d; Byte.x61; Byte.x6e])) MISSING
                  Reference.world in
  let payload : dict :=
    <[ "avatar" := PStr "TWFu" ]> (<[ "username" := PNone ]> ∅) in
  trace out.1 = [edit_request payload] /\
  out.2 = Ok 1%nat /\
  heap out.1 !! 1%nat = Some (IUserClient Reference.bot_client) /\
  payload !! "banner" = None.
Proof.
  pose proof (C3_edit Reference.api Reference.world 0%nat (Given None)
                (Given (Some [Byte.x4d; Byte.x61; Byte.x6e])) MISSING
                (<[ "avatar" := PStr "TWFu" ]> (<[ "username" := PNone ]> ∅))
                Reference.bot_record Reference.bot_client
                eq_refl eq_refl eq_refl) as (_ & (_ & _ & Hb) & _ & _ & Hout).
  destruct Hout as (Ht & _ & Hr & _ & Hn).
  exact (conj Ht (conj Hr (conj Hn Hb))).
Defined.

Lemma C4_optional_fields_witness :
  User.__init__ Reference.bot_record = Ok Reference.bot_user /\
  is_Some (User.avatar Reference.bot_user) /\
  present_and_truthy Reference.bot_record "avatar" /\
  User.__init__ Reference.blank_record = Ok Reference.blank_user /\
  User.accent_colour Reference.blank_user = None.
Proof.
  pose proof (C4_optional_fields Reference.bot_record Reference.bot_user eq_refl)
    as ((Hav & _) & _).
  pose proof (C4_optional_fields Reference.blank_record Reference.blank_user
                eq_refl) as (_ & (_ & _ & Hac & _)).
  split_and!; [reflexivity | by eexists | | reflexivity |].
  - apply Hav. by eexists.
  - apply Hac. intros (v & Hv & Ht). by injection Hv as <-.
Defined.

Lemma C5_discriminator_witness :
  User.__init__ Reference.al = Ok Reference.al_user /\
  Reference.al !! "discriminator" = Some (PStr "0") /\
  User.discriminator Reference.al_user = PNone /\
  User.discriminator Reference.bot_user = PStr "1337".
Proof.
  split_and!; [reflexivity | reflexivity | |].
  - apply (C5_discriminator Reference.al Reference.al_user "0");
      reflexivity.
  - apply (C5_discriminator Reference.bot_record Reference.bot_user "1337");
      reflexivity.
Defined.

(** C6, as stated, fails: the record of [blank_user] sets global_name to the
    empty string, which is not None, and display_name is the username "al",
    not that global name. *)
Lemma C6_empty_global_name :
  User.__init__ Reference.blank_record = Ok Reference.blank_user /\
  User.global_name Reference.blank_user = PStr "" /\
  User.global_name Reference.blank_user <> PNone /\
  User.display_name Reference.blank_user = PStr "al" /\
  User.display_name Reference.blank_user
    <> User.global_name Reference.blank_user.
Proof. split_and!; done. Qed.

Lemma C6_display_name_witness :
  User.display_name Reference.al_user = PStr "al" /\
  User.display_name Reference.bot_user = PStr "Helper" /\
  User.display_name Reference.blank_user = PStr "al".
Proof.
  split_and!.
  - apply (proj1 (proj2 (C6_display_name Reference.al_user))). reflexivity.
  - apply (proj1 (proj2 (proj2 (C6_display_name Reference.bot_user))) "Helper");
      done.
  - apply (proj2 (proj2 (proj2 (C6_display_name Reference.blank_user)))).
    reflexivity.
Defined.

Lemma C7_display_avatar_witness :
  User.display_avatar Reference.bot_user
    = Ok (Reference.mkAsset "avatar" (Some 80351110224678912)
            (PStr "8342729096ea3675442027381ff50dfe")) /\
  User.display_avatar Reference.al_user
    = Ok (Reference.mkAsset "default" None (PInt 0)) /\
  User.default_avatar Reference.bot_user
    = Ok (Reference.mkAsset "default" None
            (PInt (Z.shiftr 80351110224678912 22 mod 6))).
Proof.
  assert (0 < @DefaultAvatarType_len Reference.imports)%nat as Hlen
    by (simpl; lia).
  destruct (C7_display_avatar Reference.bot_user Hlen) as (Hset & _ & Hd & _).
  destruct (C7_display_avatar Reference.al_user Hlen) as (_ & Hunset & Hd' & _).
  split_and!.
  - by apply Hset.
  - rewrite Hunset by reflexivity. rewrite Hd'. reflexivity.
  - rewrite Hd. reflexivity.
Defined.

Lemma C8_mention_witness :
  User.__init__ Reference.al = Ok Reference.al_user /\
  User.display_name Reference.al_user = PStr "al" /\
  User.discriminator Reference.al_user = PNone /\
  User.mention Reference.al_user = "<@!123>".
Proof.
  split_and!; [reflexivity | reflexivity | reflexivity |].
  apply (proj2 (proj2 C8_mention) Reference.al Reference.al_user);
    reflexivity.
Defined.

Lemma C9_receiver_unchanged_witness :
  let o := IPartialUser (PartialUser.mk 123) in
  heap Reference.world !! 0%nat = Some o /\
  heap (send Reference.api 0%nat Reference.hi MISSING None Reference.world).1
    !! 0%nat = Some o /\
  heap (fetch Reference.api 0%nat Reference.world).1 !! 0%nat = Some o /\
  (fetch Reference.api 0%nat Reference.world).2 = Ok 1%nat /\
  heap (fetch Reference.api 0%nat Reference.world).1 !! 1%nat
    = Some (IUser Reference.bot_user).
Proof.
  intros o.
  destruct (C9_receiver_unchanged Reference.api Reference.world 0%nat o eq_refl)
    as (Hsend & _ & Hfetch & _).
  split_and!; [reflexivity | apply Hsend | apply Hfetch | reflexivity
               | reflexivity].
Defined.

Lemma C10_explicit_None_witness :
  trace (send Reference.api 0%nat Reference.hi (Given None) None
              Reference.world).1
    = [mkRequest "POST" "/channels/None/messages" None (Some "hi"%string)
         (Some {[ "Content-Type" := "multipart/form-data"%string ]})] /\
  exists rest,
    trace (send Reference.api 0%nat Reference.hi MISSING None
                Reference.world).1
      = dm_request 123 :: rest.
Proof.
  apply (C10_explicit_None Reference.api Reference.world 0%nat
           (IPartialUser (PartialUser.mk 123)) Reference.hi None
           (Reference.mkResponse (Some "hi") false) "hi"%string);
    reflexivity.
Defined.

(** A failure of the collaborator propagates unchanged: here the creation
    of the DM channel is refused, and no message-creation request follows. *)
Example send_propagates_failure :
  send Reference.down 0%nat Reference.hi MISSING None Reference.world =
    (mkWorld [dm_request 123] (heap Reference.world) [],
     Raise (HTTPException 503)).
Proof. reflexivity. Qed.

(** The deferred deletion is refused by the collaborator (404), and all that
    is left of it is the request in the log. *)
Example refused_deletion_is_silent :
  let w1 := (send Reference.api 0%nat Reference.hi MISSING (Some 5%float)
                  Reference.world).1 in
  spawned w1 = [mkTask 5%float Reference.posted] /\
  Reference.api (trace w1) (delete_request Reference.posted)
    = Raise (HTTPException 404) /\
  run_next Reference.api w1 =
    mkWorld (trace w1 ++ [delete_request Reference.posted]) (heap w1) [].
Proof. split_and!; reflexivity. Qed.

(** Image bytes as the reference encoder sends them. *)
Example base64_padding :
  Reference.data_to_base64 [Byte.x4d] = Ok "TQ==" /\
  Reference.data_to_base64 [Byte.x4d; Byte.x61] = Ok "TWE=" /\
  Reference.data_to_base64 [Byte.x4d; Byte.x61; Byte.x6e] = Ok "TWFu".
Proof. split_and!; reflexivity. Qed.

(** White space around an id is stripped, a separator character is not. *)
Example int_white_space :
  int (PStr (String "009" (String "010" "123 "))) = Ok 123 /\
  int (PStr (String "028" "123")) = Raise ValueError /\
  int (PStr (String "031" "123")) = Raise ValueError.
Proof. split_and!; reflexivity. Qed.

(** [int] on the strings Python accepts and rejects. *)
Example int_literals :
  int (PStr " -1_000 ") = Ok (-1000) /\ int (PStr "007") = Ok 7 /\
  int (PStr "1__0") = Raise ValueError /\ int (PStr "_1") = Raise ValueError /\
  int (PStr "") = Raise ValueError /\ int (PStr "0x1f") = Raise ValueError /\
  int (PFloat (-2.75)%float) = Ok (-2) /\ int PNone = Raise TypeError.
Proof. split_and!; reflexivity. Qed.

End examples.

(** * Further properties of the parser *)

Section parser_facts.
Context `{Imports}.

(** One step of [_from_data], seen as reading the attribute on its own. *)
Lemma populate_as_field {X} (data : dict) k (make : pyval -> result X)
    (set : option X -> User.t -> User.t) (self : User.t) :
  (if truthy (get data k PNone)
   then getitem data k ≫= λ v, make v ≫= λ a, mret (set (Some a) self)
   else mret self)
  = optional_field data k make ≫= λ o,
      mret (match o with Some a => set (Some a) self | None => self end).
Proof.
  unfold optional_field. destruct (truthy (get data k PNone)); [| reflexivity].
  destruct (getitem data k) as [v|e]; [| reflexivity]. simpl.
  destruct (make v); reflexivity.
Qed.

(** No setter touches the id. *)
Ltac norm_id :=
  repeat first
    [ progress change (User.id (User.set_avatar ?v ?s)) with (User.id s)
    | progress change (User.id (User.set_banner ?v ?s)) with (User.id s)
    | progress change (User.id (User.set_discriminator ?v ?s))
        with (User.id s)
    | progress change (User.id (User.set_accent_colour ?v ?s))
        with (User.id s)
    | progress change (User.id (User.set_banner_colour ?v ?s))
        with (User.id s)
    | progress change (User.id (User.set_avatar_decoration ?v ?s))
        with (User.id s)
    | progress change (User.id (User.set_public_flags ?v ?s))
        with (User.id s)
    | progress change (User.id (User.mk (PartialUser.mk ?i)
                                  _ _ _ _ _ _ _ _ _ _ _ _)) with i ].

(** The attribute-by-attribute assignments of [__init__] and [_from_data]
    build the record [user_of_record] describes: no assignment disturbs an
    attribute assigned before it. *)
Lemma init_user_of_record (data : dict) :
  User.__init__ data = user_of_record data.
Proof.
  unfold User.__init__, user_of_record, User._from_data, kept_discriminator,
    PartialUser.__init__.
  destruct (getitem data "id") as [raw|e]; [| reflexivity].
  cbn [mbind result_bind].
  destruct (int raw) as [i|e]; [| reflexivity].
  cbn [mbind result_bind int mret result_ret].
  destruct (getitem data "username") as [username|e]; [| reflexivity].
  cbn [mbind result_bind]. cbv zeta. cbn [User.discriminator].
  destruct (eq_str (get data "discriminator" PNone) "0");
    repeat (rewrite populate_as_field; norm_id;
            match goal with
            | |- context [optional_field ?d ?k ?m] =>
                destruct (optional_field d k m) as [[?|]|?]
            end;
            cbn [mbind result_bind mret result_ret];
            try reflexivity).
Qed.

Lemma optional_field_Ok {X} (data : dict) k (make : pyval -> result X)
    (o : option X) :
  optional_field data k make = Ok o ->
  (forall v, data !! k = Some v -> truthy v = true ->
             exists x, make v = Ok x /\ o = Some x) /\
  (~ present_and_truthy data k -> o = None).
Proof.
  unfold optional_field. rewrite <- truthy_get. unfold get, getitem.
  destruct (data !! k) as [v|]; simpl.
  - destruct (truthy v) eqn:Hv; simpl.
    + destruct (make v) as [x|e] eqn:Hm; [| discriminate].
      intros [= <-]. split.
      * intros v' [= <-] _. eauto.
      * intros Hn. by destruct Hn.
    + intros [= <-]. split; [| done]. intros v' [= <-]. congruence.
  - intros [= <-]. split; [discriminate | done].
Qed.

Lemma optional_field_total {X} (data : dict) k (make : pyval -> result X) :
  (forall v, data !! k = Some v -> truthy v = true -> is_ok (make v) = true) ->
  exists o, optional_field data k make = Ok o.
Proof.
  unfold optional_field, get, getitem. intros Hmake.
  destruct (data !! k) as [v|]; simpl; [| eauto].
  destruct (truthy v) eqn:Hv; simpl; [| eauto].
  specialize (Hmake v eq_refl Hv). destruct (make v); [eauto | discriminate].
Qed.

(** X1: which exception [User(...)] raises on a record that lacks its
    mandatory keys: KeyError on "id" first, then whatever [int] raises on
    the id, then KeyError on "username". *)
Theorem User_init_errors (data : dict) :
  (data !! "id" = None -> User.__init__ data = Raise (KeyError "id")) /\
  (forall raw e, data !! "id" = Some raw -> int raw = Raise e ->
                 User.__init__ data = Raise e) /\
  (forall raw i, data !! "id" = Some raw -> int raw = Ok i ->
                 data !! "username" = None ->
                 User.__init__ data = Raise (KeyError "username")).
Proof.
  rewrite init_user_of_record. unfold user_of_record, getitem. split_and!.
  - intros ->. reflexivity.
  - intros raw e -> Hi. simpl. rewrite Hi. reflexivity.
  - intros raw i -> Hi ->. simpl. rewrite Hi. reflexivity.
Qed.

(** X2: a record parses as soon as its id converts, it has a username, and
    the constructor of every optional key that is present and truthy
    accepts its value; the User then has that id and that username.  In
    particular a record with no truthy optional key parses whatever the
    constructors do. *)
Theorem User_init_succeeds (data : dict) (raw name : pyval) (i : Z) :
  data !! "id" = Some raw ->
  int raw = Ok i ->
  data !! "username" = Some name ->
  (forall v, data !! "avatar" = Some v -> truthy v = true ->
             is_ok (Asset_from_avatar i v) = true) ->
  (forall v, data !! "banner" = Some v -> truthy v = true ->
             is_ok (Asset_from_banner i v) = true) ->
  (forall v, data !! "accent_color" = Some v -> truthy v = true ->
             is_ok (Colour_init v) = true) ->
  (forall v, data !! "banner_color" = Some v -> truthy v = true ->
             is_ok (Colour_from_hex v) = true) ->
  (forall v, data !! "avatar_decoration" = Some v -> truthy v = true ->
             is_ok (Asset_from_avatar_decoration v) = true) ->
  (forall v, data !! "public_flags" = Some v -> truthy v = true ->
             is_ok (UserFlags_init v) = true) ->
  exists u, User.__init__ data = Ok u /\ User.id u = i /\ User.name u = name.
Proof.
  intros Hid Hi Hn Hav Hba Hac Hbc Had Hpf.
  rewrite init_user_of_record. unfold user_of_record, getitem.
  rewrite Hid. simpl. rewrite Hi. simpl. rewrite Hn. simpl.
  destruct (optional_field_total _ _ _ Hav) as [av ->].
  destruct (optional_field_total _ _ _ Hba) as [ba ->].
  destruct (optional_field_total _ _ _ Hac) as [ac ->].
  destruct (optional_field_total _ _ _ Hbc) as [bc ->].
  destruct (optional_field_total _ _ _ Had) as [ad ->].
  destruct (optional_field_total _ _ _ Hpf) as [pf ->].
  simpl. eauto.
Qed.

(** Reads a successful parse back into its parts. *)
Lemma user_of_record_Ok (data : dict) (u : User.t) :
  User.__init__ data = Ok u ->
  optional_field data "avatar" (Asset_from_avatar (User.id u))
    = Ok (User.avatar u) /\
  optional_field data "banner" (Asset_from_banner (User.id u))
    = Ok (User.banner u) /\
  optional_field data "accent_color" Colour_init = Ok (User.accent_colour u) /\
  optional_field data "banner_color" Colour_from_hex
    = Ok (User.banner_colour u) /\
  optional_field data "avatar_decoration" Asset_from_avatar_decoration
    = Ok (User.avatar_decoration u) /\
  optional_field data "public_flags" UserFlags_init
    = Ok (User.public_flags u) /\
  data !! "username" = Some (User.name u) /\
  User.bot u = get data "bot" (PBool false) /\
  User.system u = get data "system" (PBool false) /\
  User.global_name u = get data "global_name" PNone /\
  User.clan u = get data "clan" PNone.
Proof.
  rewrite init_user_of_record. unfold user_of_record. intros Hu.
  ok_inv Hu. ok_inv Hu. ok_inv Hu. apply getitem_Ok in Ha1.
  ok_inv Hu. ok_inv Hu. ok_inv Hu. ok_inv Hu. ok_inv Hu. ok_inv Hu.
  injection Hu as <-. unfold User.id. simpl. by split_and!.
Qed.

(** X3: in a parsed User an optional attribute holds what its constructor
    made of the record's value: the avatar and the banner are built for this
    user's id, the accent colour by [Colour(...)], the banner colour by
    [Colour.from_hex(...)], the decoration and the flags from the value
    alone. *)
Theorem User_init_values (data : dict) (u : User.t) :
  User.__init__ data = Ok u ->
  (forall v, data !! "avatar" = Some v -> truthy v = true ->
     exists a, Asset_from_avatar (User.id u) v = Ok a
               /\ User.avatar u = Some a) /\
  (forall v, data !! "banner" = Some v -> truthy v = true ->
     exists a, Asset_from_banner (User.id u) v = Ok a
               /\ User.banner u = Some a) /\
  (forall v, data !! "accent_color" = Some v -> truthy v = true ->
     exists c, Colour_init v = Ok c /\ User.accent_colour u = Some c) /\
  (forall v, data !! "banner_color" = Some v -> truthy v = true ->
     exists c, Colour_from_hex v = Ok c /\ User.banner_colour u = Some c) /\
  (forall v, data !! "avatar_decoration" = Some v -> truthy v = true ->
     exists a, Asset_from_avatar_decoration v = Ok a
               /\ User.avatar_decoration u = Some a) /\
  (forall v, data !! "public_flags" = Some v -> truthy v = true ->
     exists f, UserFlags_init v = Ok f /\ User.public_flags u = Some f).
Proof.
  intros Hu. apply user_of_record_Ok in Hu.
  destruct Hu as (Hav & Hba & Hac & Hbc & Had & Hpf & _).
  split_and!; intros v Hv Ht.
  - by apply (optional_field_Ok _ _ _ _ Hav).
  - by apply (optional_field_Ok _ _ _ _ Hba).
  - by apply (optional_field_Ok _ _ _ _ Hac).
  - by apply (optional_field_Ok _ _ _ _ Hbc).
  - by apply (optional_field_Ok _ _ _ _ Had).
  - by apply (optional_field_Ok _ _ _ _ Hpf).
Qed.

(** X4: a UserClient parses exactly when the User in it does, and the keys
    username, bot, system, global_name, clan and verified are kept as the
    record has them, without conversion, with False (bot, system, verified)
    or None (global_name, clan) standing in for an absent key. *)
Theorem UserClient_init_passthrough (data : dict) :
  is_ok (UserClient.__init__ data) = is_ok (User.__init__ data) /\
  forall c, UserClient.__init__ data = Ok c ->
    let u := UserClient.base c in
    User.__init__ data = Ok u /\
    data !! "username" = Some (User.name u) /\
    User.bot u = default (PBool false) (data !! "bot") /\
    User.system u = default (PBool false) (data !! "system") /\
    User.global_name u = default PNone (data !! "global_name") /\
    User.clan u = default PNone (data !! "clan") /\
    UserClient.verified c = default (PBool false) (data !! "verified").
Proof.
  unfold UserClient.__init__.
  destruct (User.__init__ data) as [u|e] eqn:Hu; simpl; split; try done.
  intros c [= <-]. simpl. apply user_of_record_Ok in Hu.
  destruct Hu as (_ & _ & _ & _ & _ & _ & Hn & Hb & Hs & Hg & Hc).
  rewrite Hb, Hs, Hg, Hc. unfold get.
  split_and!; try done; by destruct (data !! _).
Qed.

(** X5: an id may come as an integer or as its decimal string, as JSON
    bodies carry it: both records parse to the same result. *)
Theorem User_init_id_forms (data : dict) (z : Z) :
  User.__init__ (<[ "id" := PStr (str_of_int z) ]> data)
  = User.__init__ (<[ "id" := PInt z ]> data) /\
  PartialUser.__init__ (PStr (str_of_int z)) = PartialUser.__init__ (PInt z).
Proof.
  split.
  - rewrite !init_user_of_record.
    unfold user_of_record, optional_field, kept_discriminator, get, getitem.
    rewrite !lookup_insert_eq. cbn [mbind result_bind int].
    rewrite int_of_str_of_int.
    rewrite !lookup_insert_ne by done. reflexivity.
  - unfold PartialUser.__init__. cbn [int]. by rewrite int_of_str_of_int.
Qed.

(** X6: the default avatar of a user depends on the id above its low 22
    bits only: for an id n * 2^22 + k with 0 <= k < 2^22 the variant is
    n mod len(DefaultAvatarType). *)
Theorem default_avatar_index_high_bits (n k : Z) :
  (0 < DefaultAvatarType_len)%nat ->
  0 <= k < 4194304 ->
  PartialUser.default_avatar_index (PartialUser.mk (n * 4194304 + k))
  = Ok (n mod Z.of_nat DefaultAvatarType_len).
Proof.
  intros Hlen Hk. unfold PartialUser.default_avatar_index. simpl.
  destruct (Z.eqb_spec (Z.of_nat DefaultAvatarType_len) 0) as [?|_]; [lia |].
  rewrite Z.shiftr_div_pow2 by lia. change (2 ^ 22) with 4194304.
  rewrite Z.add_comm, Z.div_add by lia.
  rewrite Z.div_small by lia. reflexivity.
Qed.

(** X7: how a parsed User prints when its username is a string: with the
    discriminator after a "#" when the record carries one other than "0"
    and the empty string, and as the bare username when the discriminator
    is "0", empty, null or absent. *)
Theorem str_of_parsed_user (str : pyval -> string) (data : dict)
    (u : User.t) (n : string) :
  (forall s, str (PStr s) = s) ->
  User.__init__ data = Ok u ->
  data !! "username" = Some (PStr n) ->
  (forall s, data !! "discriminator" = Some (PStr s) -> s <> "0" -> s <> "" ->
             User.__str__ str u = PStr (n +:+ "#" +:+ s)) /\
  (data !! "discriminator" = Some (PStr "0") \/
   data !! "discriminator" = Some (PStr "") \/
   data !! "discriminator" = Some PNone \/
   data !! "discriminator" = None ->
   User.__str__ str u = PStr n).
Proof.
  intros Hstr Hu Hn. apply init_spec in Hu.
  destruct Hu as (_ & Hname & Hd & _).
  rewrite Hn in Hname. injection Hname as Hname.
  unfold User.__str__. rewrite Hd, <- Hname. unfold get. split.
  - intros s -> H0 He. simpl.
    rewrite bool_decide_eq_false_2 by done.
    destruct s; [done |]. simpl. by rewrite !Hstr.
  - intros [-> | [-> | [-> | ->]]]; reflexivity.
Qed.

End parser_facts.

(** * Further properties of the coroutines *)

Section operation_facts.
Context `{Imports}.
Import http.
Variable api : DiscordAPI.

(** Runs the code in the goal, innermost call first. *)
Ltac exec :=
  repeat (simpl;
          match goal with
          | |- context [match ?x with _ => _ end] =>
              lazymatch x with
              | context [match _ with _ => _ end] => fail
              | _ => destruct x eqn:?
              end
          end);
  simpl.

(** Sequencing of coroutines is associative. *)
Lemma M_bind_assoc {A B C} (m : M A) (f : A -> M B) (g : B -> M C)
    (w : World) :
  ((m ≫= f) ≫= g) w = (m ≫= λ x, f x ≫= g) w.
Proof.
  unfold mbind, M_bind. destruct (m w) as [w1 [a|e]]; reflexivity.
Qed.

(** [create_dm] on a live receiver, in full. *)
Lemma create_dm_run (w : World) (self : loc) (o : instance) :
  heap w !! self = Some o ->
  create_dm api self w =
    (mkWorld (trace w ++ [dm_request (instance_id o)]) (heap w) (spawned w),
     api (trace w) (dm_request (instance_id o)) ≫= DMChannel_init).
Proof.
  intros Ho. unfold create_dm, attr_id, query, lift, dm_request.
  unfold mbind at 1 2. unfold M_bind. rewrite Ho.
  cbn [trace heap spawned].
  by destruct (api _ _).
Qed.

(** [send] once the channel id is known, in full. *)
Lemma send_given_run (w : World) (self : loc) (f : MessageFields)
    (c : option Z) (delete_after : option float) :
  send api self f (Given c) delete_after w =
    match payload_of f ≫= λ p, to_multipart p true ≫= λ b, mret (p, b) with
    | Raise e => (w, Raise e)
    | Ok (p, b) =>
        let w1 := mkWorld (trace w ++ [message_request c p b]) (heap w)
                          (spawned w) in
        match api (trace w) (message_request c p b) ≫= Message_init with
        | Raise e => (w1, Raise e)
        | Ok msg =>
            (mkWorld (trace w1) (heap w1)
                     (spawned w1 ++ match delete_after with
                                    | Some d => [mkTask d msg]
                                    | None => []
                                    end),
             Ok msg)
        end
    end.
Proof.
  unfold send, query, lift, Message_delete, payload_of, message_request.
  unfold mbind, M_bind, result_bind, mret, M_ret, result_ret.
  destruct delete_after; exec; rewrite ?app_nil_r; try reflexivity;
    by destruct w.
Qed.

(** X8: leaving the channel id out is calling create_dm and passing the id
    of its channel: [send(...)] is [create_dm()] followed by
    [send(..., channel_id=channel.id)], with the same requests, the same
    result and the same failure. *)
Theorem send_is_create_dm_then_send (w : World) (self : loc)
    (f : MessageFields) (delete_after : option float) :
  send api self f MISSING delete_after w =
    (create_dm api self ≫= λ channel,
       send api self f (Given (Some (DMChannel_id channel))) delete_after) w.
Proof. unfold send. apply M_bind_assoc. Qed.

(** [send] without a channel id on a live receiver, in full. *)
Lemma send_missing_run (w : World) (self : loc) (o : instance)
    (f : MessageFields) (delete_after : option float) :
  heap w !! self = Some o ->
  let w1 := mkWorld (trace w ++ [dm_request (instance_id o)]) (heap w)
                    (spawned w) in
  send api self f MISSING delete_after w =
    match api (trace w) (dm_request (instance_id o)) ≫= DMChannel_init with
    | Raise e => (w1, Raise e)
    | Ok ch => send api self f (Given (Some (DMChannel_id ch))) delete_after w1
    end.
Proof.
  intros Ho w1. unfold send at 1. rewrite M_bind_assoc.
  unfold mbind at 1. unfold M_bind at 1. rewrite (create_dm_run w self o Ho).
  fold w1. by destruct (_ ≫= DMChannel_init).
Qed.

(** [fetch] on a live receiver, in full. *)
Lemma fetch_run (w : World) (self : loc) (o : instance) :
  heap w !! self = Some o ->
  let w1 := mkWorld (trace w ++ [fetch_request (instance_id o)]) (heap w)
                    (spawned w) in
  fetch api self w =
    match api (trace w) (fetch_request (instance_id o)) ≫= User.__init__ with
    | Raise e => (w1, Raise e)
    | Ok u => (mkWorld (trace w1) (heap w ++ [IUser u]) (spawned w),
               Ok (length (heap w)))
    end.
Proof.
  intros Ho w1. unfold fetch, attr_id, query, lift, new, fetch_request.
  unfold mbind at 1 2 3. unfold M_bind. rewrite Ho.
  cbn [trace heap spawned]. subst w1. unfold fetch_request.
  destruct (api _ _) as [r|e]; [| reflexivity]. cbn [mbind result_bind].
  by destruct (User.__init__ r).
Qed.

(** [edit], in full. *)
Lemma edit_full_run (w : World) (self : loc) (username : arg (option string))
    (avatar banner : arg (option (list Byte.byte))) :
  edit api self username avatar banner w =
    match edit_payload username avatar banner with
    | Raise e => (w, Raise e)
    | Ok payload =>
        let w1 := mkWorld (trace w ++ [edit_request payload]) (heap w)
                          (spawned w) in
        match api (trace w) (edit_request payload) ≫= UserClient.__init__ with
        | Raise e => (w1, Raise e)
        | Ok c => (mkWorld (trace w1) (heap w ++ [IUserClient c]) (spawned w),
                   Ok (length (heap w)))
        end
    end.
Proof.
  unfold edit, query, lift, new, edit_request.
  unfold mbind at 1 2 3. unfold M_bind.
  destruct (edit_payload username avatar banner) as [payload|e];
    [| reflexivity].
  cbn [trace heap spawned].
  destruct (api _ _) as [r|e]; [| reflexivity]. cbn [mbind result_bind].
  by destruct (UserClient.__init__ r).
Qed.

(** X9: when the creation of the DM channel fails (the collaborator raises,
    or its answer is no channel), [send] raises that same exception, and the
    creation request is the only one it issued: no message is posted and
    no deletion is scheduled. *)
Theorem send_dm_failure (w : World) (self : loc) (o : instance)
    (f : MessageFields) (delete_after : option float) (e : exn) :
  heap w !! self = Some o ->
  api (trace w) (dm_request (instance_id o)) ≫= DMChannel_init = Raise e ->
  send api self f MISSING delete_after w =
    (mkWorld (trace w ++ [dm_request (instance_id o)]) (heap w) (spawned w),
     Raise e).
Proof.
  intros Ho He. rewrite (send_missing_run w self o f delete_after Ho).
  by rewrite He.
Qed.

(** X10: when the message-creation request fails (the collaborator raises,
    or its answer is no message), [send] raises that same exception after
    that one request, and schedules no deletion even though delete_after
    is set. *)
Theorem send_post_failure (w : World) (self : loc) (f : MessageFields)
    (c : option Z) (delete_after : option float)
    (payload : MessageResponse) (body : Multipart) (e : exn) :
  payload_of f = Ok payload ->
  to_multipart payload true = Ok body ->
  api (trace w) (message_request c payload body) ≫= Message_init = Raise e ->
  send api self f (Given c) delete_after w =
    (mkWorld (trace w ++ [message_request c payload body]) (heap w)
             (spawned w),
     Raise e).
Proof.
  intros Hp Hb He. rewrite send_given_run, Hp. cbn [mbind result_bind].
  rewrite Hb. cbn [mbind result_bind mret result_ret]. by rewrite He.
Qed.

(** X11: the message is built after the channel is resolved.  When
    [MessageResponse(...)] or [to_multipart] raises, [send] with a channel id
    raises with no request issued, but [send] without one has by then
    issued the request that creates the DM channel. *)
Theorem send_invalid_payload (w : World) (self : loc) (o : instance)
    (f : MessageFields) (delete_after : option float) (e : exn)
    (r : dict) (ch : DMChannel) :
  payload_of f ≫= (λ p, to_multipart p true) = Raise e ->
  heap w !! self = Some o ->
  api (trace w) (dm_request (instance_id o)) = Ok r ->
  DMChannel_init r = Ok ch ->
  (forall c, send api self f (Given c) delete_after w = (w, Raise e)) /\
  send api self f MISSING delete_after w =
    (mkWorld (trace w ++ [dm_request (instance_id o)]) (heap w) (spawned w),
     Raise e).
Proof.
  intros He Ho Hr Hch.
  assert (forall c v, send api self f (Given c) delete_after v = (v, Raise e))
    as Hgiven.
  { intros c v. rewrite send_given_run.
    destruct (payload_of f) as [p|e']; cbn [mbind result_bind] in *;
      [| by injection He as ->].
    destruct (to_multipart p true); [discriminate | by injection He as ->]. }
  split; [intros c; apply Hgiven |].
  rewrite (send_missing_run w self o f delete_after Ho), Hr.
  cbn [mbind result_bind]. rewrite Hch. apply Hgiven.
Qed.

(** X12: [fetch] issues GET /users/{id} for the receiver's id and returns a
    new object holding the User parsed from the answer; the id of that User
    is the one the answer carries, whatever the receiver's id is. *)
Theorem fetch_returns_response_user (w : World) (self : loc) (o : instance)
    (r : dict) (u : User.t) :
  heap w !! self = Some o ->
  api (trace w) (fetch_request (instance_id o)) = Ok r ->
  User.__init__ r = Ok u ->
  fetch api self w =
    (mkWorld (trace w ++ [fetch_request (instance_id o)])
             (heap w ++ [IUser u]) (spawned w),
     Ok (length (heap w))) /\
  exists raw, r !! "id" = Some raw /\ int raw = Ok (User.id u).
Proof.
  intros Ho Hr Hu. split.
  - rewrite (fetch_run w self o Ho), Hr. cbn [mbind result_bind].
    by rewrite Hu.
  - by apply init_spec in Hu as [? _].
Qed.

(** X13: when the profile request fails, or its answer does not parse as a
    User, [fetch] raises that same exception and constructs nothing. *)
Theorem fetch_failure (w : World) (self : loc) (o : instance) (e : exn) :
  heap w !! self = Some o ->
  api (trace w) (fetch_request (instance_id o)) ≫= User.__init__ = Raise e ->
  fetch api self w =
    (mkWorld (trace w ++ [fetch_request (instance_id o)]) (heap w)
             (spawned w),
     Raise e).
Proof.
  intros Ho He. rewrite (fetch_run w self o Ho). by rewrite He.
Qed.

(** X14: nothing is cached.  Two fetches in a row on the same receiver issue
    the same request twice and return two different new objects, and the
    second call leaves the object of the first one as it is. *)
Theorem fetch_twice (w w1 w2 : World) (self l1 l2 : loc) :
  fetch api self w = (w1, Ok l1) ->
  fetch api self w1 = (w2, Ok l2) ->
  l1 <> l2 /\ l1 <> self /\ l2 <> self /\
  (exists i, trace w2 = trace w ++ [fetch_request i; fetch_request i]) /\
  (exists u1 u2, heap w2 = heap w ++ [IUser u1; IUser u2] /\
                 heap w1 !! l1 = Some (IUser u1) /\
                 heap w2 !! l1 = Some (IUser u1) /\
                 heap w2 !! l2 = Some (IUser u2)).
Proof.
  intros H1 H2.
  destruct (heap w !! self) as [o|] eqn:Ho;
    [| unfold fetch, attr_id, mbind, M_bind in H1; by rewrite Ho in H1].
  assert (self < length (heap w))%nat as Hlt by (by eapply lookup_lt_Some).
  rewrite (fetch_run w self o Ho) in H1.
  destruct (_ ≫= User.__init__) as [u1|?] in H1; [| discriminate].
  injection H1 as <- <-.
  assert (heap (mkWorld (trace w ++ [fetch_request (instance_id o)])
                        (heap w ++ [IUser u1]) (spawned w)) !! self = Some o)
    as Ho1 by (by apply lookup_app_l_Some).
  rewrite (fetch_run _ self o Ho1) in H2. cbn [trace heap spawned] in H2.
  destruct (_ ≫= User.__init__) as [u2|?] in H2; [| discriminate].
  injection H2 as <- <-. cbn [trace heap spawned].
  rewrite length_app. simpl. split_and!; try lia.
  - exists (instance_id o). by rewrite <- app_assoc.
  - exists u1, u2. rewrite <- app_assoc. split_and!; [done | | |].
    + rewrite lookup_app_r by lia. by rewrite Nat.sub_diag.
    + rewrite lookup_app_r by lia. by rewrite Nat.sub_diag.
    + rewrite lookup_app_r by lia.
      by replace (length (heap w) + 1 - length (heap w))%nat with 1%nat by lia.
Qed.

(** X15: how [edit] fails.  When the avatar bytes cannot be encoded, or the
    avatar is fine and the banner bytes cannot, [edit] raises before any
    request; when the request fails or its answer does not parse, the
    exception comes after that one request.  No object is constructed in
    either case. *)
Theorem edit_failures (w : World) (self : loc)
    (username : arg (option string))
    (avatar banner : arg (option (list Byte.byte))) (e : exn) :
  (forall b, avatar = Given (Some b) -> bytes_to_base64 b = Raise e ->
             edit api self username avatar banner w = (w, Raise e)) /\
  (forall b, is_ok (edit_payload username avatar MISSING) = true ->
             banner = Given (Some b) -> bytes_to_base64 b = Raise e ->
             edit api self username avatar banner w = (w, Raise e)) /\
  (forall payload,
     edit_payload username avatar banner = Ok payload ->
     api (trace w) (edit_request payload) ≫= UserClient.__init__ = Raise e ->
     edit api self username avatar banner w =
       (mkWorld (trace w ++ [edit_request payload]) (heap w) (spawned w),
        Raise e)).
Proof.
  split_and!.
  - intros b -> Hb. rewrite edit_full_run. unfold edit_payload.
    destruct username as [|[?|]]; cbn [mbind result_bind]; by rewrite Hb.
  - intros b Hav -> Hb. rewrite edit_full_run. revert Hav.
    unfold edit_payload.
    destruct username as [|[?|]], avatar as [|[a|]];
      cbn [mbind result_bind mret result_ret];
      try (destruct (bytes_to_base64 a); cbn [mbind result_bind];
           [| discriminate]);
      intros _; cbn [mbind result_bind mret result_ret]; by rewrite Hb.
  - intros payload Hp He. rewrite edit_full_run, Hp. cbv zeta. by rewrite He.
Qed.

(** X16: the requests of each operation, whatever its outcome: [send] issues
    at most two and [create_dm] at most one, all POST; [fetch] issues at most
    one, a GET; [edit] issues at most one, a PATCH.  None of them issues a
    DELETE. *)
Theorem request_methods (w : World) (self : loc) :
  (forall f channel_id delete_after, exists added,
     trace (send api self f channel_id delete_after w).1 = trace w ++ added /\
     (length added <= 2)%nat /\ Forall (λ r, method r = "POST") added) /\
  (exists added,
     trace (create_dm api self w).1 = trace w ++ added /\
     (length added <= 1)%nat /\ Forall (λ r, method r = "POST") added) /\
  (exists added,
     trace (fetch api self w).1 = trace w ++ added /\
     (length added <= 1)%nat /\ Forall (λ r, method r = "GET") added) /\
  (forall username avatar banner, exists added,
     trace (edit api self username avatar banner w).1 = trace w ++ added /\
     (length added <= 1)%nat /\ Forall (λ r, method r = "PATCH") added).
Proof.
  assert (forall (m : string) (req : Request), method req = m ->
            exists added, trace w ++ [req] = trace w ++ added /\
              (length added <= 1)%nat /\ Forall (λ r, method r = m) added)
    as Hone by (intros m req Hm; exists [req]; by repeat constructor).
  assert (forall m : string,
            exists added, trace w = trace w ++ added /\
              (length added <= 1)%nat /\ Forall (λ r, method r = m) added)
    as Hnone.
  { intros m. exists []. rewrite app_nil_r. split_and!; [done | simpl; lia |].
    constructor. }
  split_and!.
  - intros f channel_id delete_after.
    destruct channel_id as [|c].
    + destruct (heap w !! self) as [o|] eqn:Ho.
      * rewrite (send_missing_run w self o f delete_after Ho).
        destruct (_ ≫= DMChannel_init) as [ch|e].
        -- rewrite send_given_run.
           destruct (_ ≫= _) as [[p b]|e]; cbn [fst trace].
           ++ cbv zeta. destruct (_ ≫= Message_init);
                cbn [fst trace]; rewrite <- app_assoc;
                eexists [_; _]; split_and!; [done | simpl; lia |
                                             by repeat constructor ..].
           ++ exists [dm_request (instance_id o)].
              split_and!; [done | simpl; lia | by repeat constructor].
        -- exists [dm_request (instance_id o)].
           split_and!; [done | simpl; lia | by repeat constructor].
      * unfold send, create_dm, attr_id. unfold mbind, M_bind. rewrite Ho.
        cbn [fst]. destruct (Hnone "POST") as (added & ? & ? & ?).
        exists added. split_and!; [done | lia | done].
    + rewrite send_given_run.
      destruct (_ ≫= _) as [[p b]|e]; cbn [fst].
      * cbv zeta. destruct (_ ≫= Message_init); cbn [fst trace];
          eexists [_]; split_and!; [done | simpl; lia |
                                    by repeat constructor ..].
      * destruct (Hnone "POST") as (added & ? & ? & ?).
        exists added. split_and!; [done | lia | done].
  - destruct (heap w !! self) as [o|] eqn:Ho.
    + rewrite (create_dm_run w self o Ho). by apply Hone.
    + unfold create_dm, attr_id. unfold mbind, M_bind. rewrite Ho.
      apply Hnone.
  - destruct (heap w !! self) as [o|] eqn:Ho.
    + rewrite (fetch_run w self o Ho).
      destruct (_ ≫= User.__init__); by apply Hone.
    + unfold fetch, attr_id. unfold mbind, M_bind. rewrite Ho. apply Hnone.
  - intros username avatar banner. rewrite edit_full_run.
    destruct (edit_payload username avatar banner); [| apply Hnone].
    cbv zeta. destruct (_ ≫= UserClient.__init__); by apply Hone.
Qed.

(** X17: no operation changes or removes an object of the store, receiver
    or not: every object that was there is there unchanged after send,
    create_dm, fetch, edit and after a deferred deletion ran, and the store
    grows by one object at most. *)
Theorem store_only_grows (w : World) (self l : loc) (o : instance) :
  heap w !! l = Some o ->
  (forall f channel_id delete_after,
     heap (send api self f channel_id delete_after w).1 = heap w) /\
  heap (create_dm api self w).1 = heap w /\
  (heap (fetch api self w).1 !! l = Some o /\
   (length (heap (fetch api self w).1) <= S (length (heap w)))%nat) /\
  (forall username avatar banner,
     heap (edit api self username avatar banner w).1 !! l = Some o /\
     (length (heap (edit api self username avatar banner w).1)
      <= S (length (heap w)))%nat) /\
  (forall t, heap (run_task api t w) = heap w).
Proof.
  intros Hl. split_and!.
  - intros. apply send_heap.
  - apply create_dm_heap.
  - destruct (fetch_heap api w self) as [[-> _] | (u & -> & _)];
      [done | by apply lookup_app_l_Some].
  - destruct (fetch_heap api w self) as [[-> _] | (u & -> & _)];
      rewrite ?length_app; simpl; lia.
  - intros username avatar banner.
    destruct (edit_heap api w self username avatar banner)
      as [[-> _] | (c & -> & _)]; rewrite ?length_app; simpl;
      (split; [by rewrite ?(lookup_app_l_Some _ _ _ _ Hl) | lia]).
  - reflexivity.
Qed.

(** X18: [create_dm] keeps no channel: a second call on the same receiver
    issues the same request again, whatever the first call returned, and
    neither call constructs an object of the store. *)
Theorem create_dm_not_cached (w : World) (self : loc) (o : instance) :
  heap w !! self = Some o ->
  let w1 := (create_dm api self w).1 in
  let w2 := (create_dm api self w1).1 in
  trace w2 = trace w ++ [dm_request (instance_id o);
                         dm_request (instance_id o)] /\
  heap w2 = heap w.
Proof.
  intros Ho w1 w2. subst w2 w1.
  rewrite (create_dm_run w self o Ho). cbn [fst].
  rewrite (create_dm_run
             (mkWorld (trace w ++ [dm_request (instance_id o)]) (heap w)
                      (spawned w)) self o Ho).
  cbn [fst trace heap]. by rewrite <- app_assoc.
Qed.

End operation_facts.

(** ** The further statements at work *)

Section more_examples.
Import http.
#[local] Existing Instance Reference.imports.

Lemma User_init_errors_witness :
  User.__init__ Reference.no_id = Raise (KeyError "id") /\
  User.__init__ Reference.bad_id = Raise ValueError /\
  User.__init__ Reference.no_username = Raise (KeyError "username").
Proof.
  split_and!.
  - apply (proj1 (User_init_errors Reference.no_id)). reflexivity.
  - apply (proj1 (proj2 (User_init_errors Reference.bad_id)) (PStr "12a"));
      reflexivity.
  - apply (proj2 (proj2 (User_init_errors Reference.no_username))
             (PStr "123") 123); reflexivity.
Defined.

Lemma User_init_succeeds_witness :
  exists u, User.__init__ Reference.bot_record = Ok u /\
            User.id u = 80351110224678912 /\ User.name u = PStr "helper".
Proof.
  apply (User_init_succeeds Reference.bot_record (PInt 80351110224678912));
    try reflexivity; intros v [= <-] _; reflexivity.
Defined.

Lemma User_init_values_witness :
  User.__init__ Reference.bot_record = Ok Reference.bot_user /\
  (exists a,
     Asset_from_banner 80351110224678912
                       (PStr "06c16474723fe537c283b8efa61a30c8") = Ok a /\
     User.banner Reference.bot_user = Some a) /\
  (exists c, Colour_from_hex (PStr "#ff0000") = Ok c /\
             User.banner_colour Reference.bot_user = Some c).
Proof.
  destruct (User_init_values Reference.bot_record Reference.bot_user eq_refl)
    as (_ & Hba & _ & Hbc & _).
  split_and!; [reflexivity | |].
  - apply (Hba (PStr "06c16474723fe537c283b8efa61a30c8")); reflexivity.
  - apply (Hbc (PStr "#ff0000")); reflexivity.
Defined.

Lemma UserClient_init_passthrough_witness :
  UserClient.__init__ Reference.bot_record = Ok Reference.bot_client /\
  User.bot Reference.bot_user = PBool true /\
  User.system Reference.bot_user = PBool false /\
  User.clan Reference.bot_user = PNone /\
  UserClient.verified Reference.bot_client = PBool true.
Proof.
  destruct (proj2 (UserClient_init_passthrough Reference.bot_record)
              Reference.bot_client eq_refl)
    as (_ & _ & Hb & Hs & _ & Hc & Hv).
  split_and!; [reflexivity | exact Hb | exact Hs | exact Hc | exact Hv].
Defined.

Lemma default_avatar_index_high_bits_witness :
  PartialUser.default_avatar_index (PartialUser.mk (7 * 4194304 + 5)) = Ok 1 /\
  PartialUser.default_avatar_index (PartialUser.mk (7 * 4194304)) = Ok 1.
Proof.
  split.
  - refine (@default_avatar_index_high_bits Reference.imports 7 5 _ _);
      simpl; lia.
  - refine (@default_avatar_index_high_bits Reference.imports 7 0 _ _);
      simpl; lia.
Defined.

Lemma str_of_parsed_user_witness :
  User.__str__ Reference.str_value Reference.bot_user = PStr "helper#1337" /\
  User.__str__ Reference.str_value Reference.al_user = PStr "al".
Proof.
  split.
  - apply (proj1 (str_of_parsed_user Reference.str_value Reference.bot_record
                    Reference.bot_user "helper" (fun s => eq_refl)
                    eq_refl eq_refl) "1337"); done.
  - apply (proj2 (str_of_parsed_user Reference.str_value Reference.al
                    Reference.al_user "al" (fun s => eq_refl)
                    eq_refl eq_refl)). by left.
Defined.

Lemma send_dm_failure_witness :
  send Reference.down 0%nat Reference.hi MISSING (Some 5%float)
       Reference.world
  = (mkWorld [dm_request 123] (heap Reference.world) [],
     Raise (HTTPException 503)).
Proof.
  apply (send_dm_failure Reference.down Reference.world 0%nat
           (IPartialUser (PartialUser.mk 123)));
    reflexivity.
Defined.

Lemma send_post_failure_witness :
  send Reference.down 0%nat Reference.hi (Given (Some 555)) (Some 5%float)
       Reference.world
  = (mkWorld [message_request (Some 555)
                (Reference.mkResponse (Some "hi") false) "hi"]
             (heap Reference.world) [],
     Raise (HTTPException 503)).
Proof.
  apply (send_post_failure Reference.down Reference.world 0%nat Reference.hi
           (Some 555) (Some 5%float)
           (Reference.mkResponse (Some "hi") false) "hi"%string);
    reflexivity.
Defined.

Lemma send_invalid_payload_witness :
  @send Reference.strict (Reference.serving Reference.strict) 0%nat
        Reference.two_embeds (Given (Some 555)) None Reference.strict_world
  = (Reference.strict_world, Raise ValueError) /\
  @send Reference.strict (Reference.serving Reference.strict) 0%nat
        Reference.two_embeds MISSING None Reference.strict_world
  = (@mkWorld Reference.strict [@dm_request Reference.strict 123]
       (@heap Reference.strict Reference.strict_world) [],
     Raise ValueError).
Proof.
  destruct (@send_invalid_payload Reference.strict
              (Reference.serving Reference.strict) Reference.strict_world
              0%nat (@IPartialUser Reference.strict (PartialUser.mk 123))
              Reference.two_embeds None ValueError
              {[ "id" := PStr "555" ]} 555 eq_refl eq_refl eq_refl eq_refl)
    as [Hgiven Hmissing].
  split; [apply Hgiven | exact Hmissing].
Defined.

Lemma fetch_returns_response_user_witness :
  fetch Reference.api 0%nat Reference.world
  = (mkWorld [fetch_request 123]
             (heap Reference.world ++ [IUser Reference.bot_user]) [],
     Ok 1%nat) /\
  User.id Reference.bot_user <> 123.
Proof.
  split; [| done].
  apply (proj1 (fetch_returns_response_user Reference.api Reference.world
                  0%nat (IPartialUser (PartialUser.mk 123))
                  Reference.bot_record Reference.bot_user
                  eq_refl eq_refl eq_refl)).
Defined.

Lemma fetch_failure_witness :
  fetch Reference.down 0%nat Reference.world
  = (mkWorld [fetch_request 123] (heap Reference.world) [],
     Raise (HTTPException 503)).
Proof.
  apply (fetch_failure Reference.down Reference.world 0%nat
           (IPartialUser (PartialUser.mk 123)));
    reflexivity.
Defined.

Lemma fetch_twice_witness :
  let w1 := (fetch Reference.api 0%nat Reference.world).1 in
  let w2 := (fetch Reference.api 0%nat w1).1 in
  1%nat <> 2%nat /\
  (exists i, trace w2 = trace Reference.world
                        ++ [fetch_request i; fetch_request i]) /\
  length (heap w2) = 3%nat.
Proof.
  intros w1 w2.
  destruct (fetch_twice Reference.api Reference.world w1 w2 0%nat 1%nat 2%nat
              eq_refl eq_refl) as (Hne & _ & _ & Htrace & _).
  split_and!; [exact Hne | exact Htrace | reflexivity].
Defined.

Lemma edit_failures_witness :
  @edit Reference.strict (Reference.serving Reference.strict) 0%nat
        (Given (Some "al")) (Given (Some [])) MISSING Reference.strict_world
  = (Reference.strict_world, Raise ValueError) /\
  @edit Reference.strict (Reference.serving Reference.strict) 0%nat
        MISSING (Given None) (Given (Some [])) Reference.strict_world
  = (Reference.strict_world, Raise ValueError) /\
  @edit Reference.strict (Reference.refusing Reference.strict) 0%nat
        (Given None) MISSING MISSING Reference.strict_world
  = (@mkWorld Reference.strict
       [@edit_request Reference.strict (<[ "username" := PNone ]> ∅)]
       (@heap Reference.strict Reference.strict_world) [],
     Raise (HTTPException 503)).
Proof.
  split_and!.
  - apply (proj1 (@edit_failures Reference.strict
                    (Reference.serving Reference.strict)
                    Reference.strict_world 0%nat (Given (Some "al"))
                    (Given (Some [])) MISSING ValueError) []); reflexivity.
  - apply (proj1 (proj2 (@edit_failures Reference.strict
                    (Reference.serving Reference.strict)
                    Reference.strict_world 0%nat MISSING
                    (Given None) (Given (Some [])) ValueError)) []);
      reflexivity.
  - apply (proj2 (proj2 (@edit_failures Reference.strict
                    (Reference.refusing Reference.strict)
                    Reference.strict_world 0%nat (Given None)
                    MISSING MISSING (HTTPException 503)))
             (<[ "username" := PNone ]> ∅)); reflexivity.
Defined.

Lemma store_only_grows_witness :
  let o := IPartialUser (PartialUser.mk 123) in
  heap Reference.world !! 0%nat = Some o /\
  heap (fetch Reference.api 0%nat Reference.world).1 !! 0%nat = Some o /\
  heap (edit Reference.api 0%nat MISSING MISSING MISSING Reference.world).1
    !! 0%nat = Some o.
Proof.
  intros o.
  destruct (store_only_grows Reference.api Reference.world 0%nat 0%nat o
              eq_refl) as (_ & _ & [Hf _] & He & _).
  split_and!; [reflexivity | exact Hf | apply He].
Defined.

Lemma create_dm_not_cached_witness :
  let w1 := (create_dm Reference.api 0%nat Reference.world).1 in
  trace (create_dm Reference.api 0%nat w1).1
  = [dm_request 123; dm_request 123] /\
  heap (create_dm Reference.api 0%nat w1).1 = heap Reference.world.
Proof.
  apply (create_dm_not_cached Reference.api Reference.world 0%nat
           (IPartialUser (PartialUser.mk 123)) eq_refl).
Defined.

End more_examples.
